(** * EditorConfig for VS Code: indentation reconciliation and pre-save pipeline

    A shallow embedding of [src/api.ts] and [src/DocumentWatcher.ts].

    - JavaScript primitives are the values of [JsVal]; [===], [??], [typeof]
      and truthiness are written out on them.  Numbers are integers, those
      that a double holds; the result of [parseInt] is a [JsNumber], which
      can also be [NaN] or an infinity.
    - The EditorConfig property map ([editorconfig.KnownProps]) and the
      workspace configuration ([workspace.getConfiguration('editor', doc)])
      are finite maps from key names to [JsVal]; a key that is not in the map
      reads as [undefined].
    - [editor.options] is a record of three [JsVal] fields.  A write to one of
      its properties goes through the host's setter, which is a parameter of
      the reconciler; [assign] is plain property assignment.
    - Everything the reconciler asks of the host (warning prompt, settings
      update, command, option write, error message) is appended to a trace,
      in program order.  The text of the warning is not part of the event,
      its three items are.
    - The calls on the optional [log] channel of [api.ts] are left out; the
      lines [DocumentWatcher] logs, and the two callbacks it passes to the
      resolver, are kept in a [Log]. *)

From stdpp Require Import base option list strings gmap.
From Stdlib Require Import ZArith Bool Ascii DecimalString DecimalZ.

Open Scope Z_scope.

(** ** JavaScript values *)

Inductive JsVal : Type :=
  | VUndef
  | VNull
  | VBool (b : bool)
  | VNum (n : Z)
  | VStr (s : string).

(** [a === b] on primitives. *)
Definition strict_eq (a b : JsVal) : bool :=
  match a, b with
  | VUndef, VUndef => true
  | VNull, VNull => true
  | VBool x, VBool y => Bool.eqb x y
  | VNum x, VNum y => Z.eqb x y
  | VStr x, VStr y => String.eqb x y
  | _, _ => false
  end.

(** [a !== b]. *)
Definition strict_neq (a b : JsVal) : bool := negb (strict_eq a b).

(** [a !== undefined] and [a === undefined]. *)
Definition is_defined (a : JsVal) : bool := strict_neq a VUndef.
Definition is_undefined (a : JsVal) : bool := strict_eq a VUndef.

(** [typeof a === 'boolean'] and [typeof a === 'number']. *)
Definition is_boolean (a : JsVal) : bool :=
  match a with VBool _ => true | _ => false end.
Definition is_number (a : JsVal) : bool :=
  match a with VNum _ => true | _ => false end.

(** Truthiness, as tested by [if (a)] and [a ? x : y]. *)
Definition truthy (a : JsVal) : bool :=
  match a with
  | VUndef | VNull => false
  | VBool b => b
  | VNum n => negb (Z.eqb n 0)
  | VStr s => negb (String.eqb s "")
  end.

(** [a ?? b]: [b] when [a] is [null] or [undefined], else [a]. *)
Definition nullish (a b : JsVal) : JsVal :=
  match a with
  | VUndef | VNull => b
  | _ => a
  end.

Infix "??" := nullish (at level 45, right associativity).

(** ** Property maps *)

(** [editorconfig.KnownProps], and the workspace's [editor] configuration. *)
Abbreviation Props := (gmap string JsVal).

(** [obj.key] and [config.get(key)]: [undefined] for a missing key. *)
Definition prop (p : Props) (key : string) : JsVal := default VUndef (p !! key).

(** ** Indentation options *)

(** [TextEditorIndentationOptions], also the shape of [editor.options] and of
    [TextEditorResolvedIndentationOptions].  A key that is missing and a key
    that holds [undefined] both read as [VUndef]. *)
Record Options : Type := mkOptions {
  insertSpaces : JsVal;
  indentSize : JsVal;
  tabSize : JsVal
}.

(** The object literal [{}]. *)
Definition noOptions : Options := mkOptions VUndef VUndef VUndef.

Definition set_insertSpaces (v : JsVal) (o : Options) : Options :=
  mkOptions v (indentSize o) (tabSize o).
Definition set_indentSize (v : JsVal) (o : Options) : Options :=
  mkOptions (insertSpaces o) v (tabSize o).
Definition set_tabSize (v : JsVal) (o : Options) : Options :=
  mkOptions (insertSpaces o) (indentSize o) v.

(** [SYMBOLIC_MATCH_TAB]: the string ['tabSize'] in [indentSize]. *)
Definition matchTab : JsVal := VStr "tabSize".

(** ** [fromEditorConfig] (api.ts, 299-338) *)

Definition fromEditorConfig (editorConfig : Props) : Options :=
  let options := noOptions in
  let options :=
    let indent_style := prop editorConfig "indent_style" in
    if strict_eq indent_style (VStr "space") then
      set_insertSpaces (VBool true) options
    else if strict_eq indent_style (VStr "tab") then
      set_insertSpaces (VBool false) options
    else if strict_eq indent_style (VStr "unset") then
      set_insertSpaces VUndef options
    else
      set_insertSpaces indent_style options in
  let options :=
    let indent_size := prop editorConfig "indent_size" in
    if strict_eq indent_size (VStr "tab") then
      set_indentSize matchTab options
    else if strict_eq indent_size (VStr "unset") then
      set_indentSize VUndef options
    else
      set_indentSize indent_size options in
  let options :=
    let tab_width := prop editorConfig "tab_width" in
    if strict_eq tab_width (VStr "unset") then
      set_tabSize VUndef options
    else
      set_tabSize tab_width options in
  options.

(** ** The host: editor view, workspace configuration, user interface *)

Inductive Field : Type := FInsertSpaces | FIndentSize | FTabSize.

(** What the extension asks of the host, in program order. *)
Inductive Event : Type :=
  | EShowWarning (items : list string)
      (* window.showWarningMessage(text, ...items) *)
  | EUpdateSetting (key : string) (v : JsVal)
      (* editorSettings.update(key, v) *)
  | EExecuteCommand (command : string)
      (* commands.executeCommand(command) *)
  | ESetOption (f : Field) (v : JsVal)
      (* editor.options.f = v *)
  | EShowError (text : string).
      (* window.showErrorMessage(text) *)

Record World : Type := mkWorld {
  editor : Options;      (* editor.options of the view *)
  settings : Props;      (* workspace.getConfiguration('editor', doc) *)
  trace : list Event
}.

(** The setter behind [editor.options.f = v]: the options the view holds
    after the write. *)
Definition HostSetter : Type := Field -> JsVal -> Options -> Options.

(** Plain property assignment. *)
Definition assign : HostSetter := fun f v o =>
  match f with
  | FInsertSpaces => set_insertSpaces v o
  | FIndentSize => set_indentSize v o
  | FTabSize => set_tabSize v o
  end.

(** A view that does not take a new indentation style. *)
Definition keepsStyle : HostSetter := fun f v o =>
  match f with
  | FInsertSpaces => o
  | _ => assign f v o
  end.

Definition emit (e : Event) (w : World) : World :=
  mkWorld (editor w) (settings w) (trace w ++ [e]).

Definition writeOption (host : HostSetter) (f : Field) (v : JsVal) (w : World)
  : World :=
  mkWorld (host f v (editor w)) (settings w) (trace w ++ [ESetOption f v]).

Definition updateSetting (key : string) (v : JsVal) (w : World) : World :=
  mkWorld (editor w) (<[key := v]> (settings w))
          (trace w ++ [EUpdateSetting key v]).

(** The answer of [window.showWarningMessage]: the item picked, or
    [undefined] when the message is dismissed. *)
Definition Answer : Type := option string.

Definition picked (a : Answer) (item : string) : bool :=
  match a with
  | Some s => String.eqb s item
  | None => false
  end.

(** ** [toTextEditorResolvedIndentationOptions] (api.ts, 58-75) *)

Definition toTextEditorResolvedIndentationOptions (options : Options)
  : string + Options :=
  if negb (is_boolean (insertSpaces options)) then
    inl "Expected insertSpaces to be a boolean"
  else if negb (is_number (tabSize options)) then
    inl "Expected tabSize to be a number"
  else if negb (is_number (indentSize options)) then
    inl "Expected indentSize to be a number"
  else
    inr (mkOptions (insertSpaces options) (indentSize options)
                   (tabSize options)).

(** ** [getWorkspaceIndentationSettings] (api.ts, 220-240) *)

Definition getWorkspaceIndentationSettings (workspaceConfig : Props) : Options :=
  let detectIndentation := prop workspaceConfig "detectIndentation" in
  if truthy detectIndentation then noOptions
  else mkOptions (prop workspaceConfig "insertSpaces")
                 (prop workspaceConfig "indentSize")
                 (prop workspaceConfig "tabSize").

(** ** [applyTextEditorOptions] (api.ts, 80-215) *)

(** [isDeepStrictEqual(newOptions, currentOptions)], for a [currentOptions]
    that [toTextEditorResolvedIndentationOptions] returned: its three keys
    hold a boolean and two numbers, so the objects are equal exactly when
    [newOptions] holds the same three values. *)
Definition isDeepStrictEqual (a b : Options) : bool :=
  strict_eq (insertSpaces a) (insertSpaces b)
  && strict_eq (indentSize a) (indentSize b)
  && strict_eq (tabSize a) (tabSize b).

(** Lines 105-148: the fields to change.  [newOptions] is assigned to at
    line 120, so it is returned next to [optionsToUpdate]. *)
Definition detectChanges (useTabSize : JsVal)
    (workspaceOptions currentOptions newOptions : Options)
  : Options * Options :=
  let optionsToUpdate := noOptions in
  let optionsToUpdate :=
    if is_defined (insertSpaces newOptions)
       && strict_neq (insertSpaces newOptions) (insertSpaces currentOptions)
    then set_insertSpaces (insertSpaces newOptions) optionsToUpdate
    else optionsToUpdate in
  let '(newOptions, optionsToUpdate) :=
    if is_defined (indentSize newOptions) then
      let newOptions :=
        if strict_eq (indentSize newOptions) matchTab
        then set_tabSize (tabSize workspaceOptions ?? VNum 4) newOptions
        else newOptions in
      let optionsToUpdate :=
        if strict_neq (indentSize newOptions) (indentSize currentOptions)
        then set_indentSize (indentSize newOptions) optionsToUpdate
        else optionsToUpdate in
      (newOptions, optionsToUpdate)
    else (newOptions, optionsToUpdate) in
  let optionsToUpdate :=
    if is_defined (tabSize newOptions) then
      if truthy useTabSize
      then set_tabSize (tabSize newOptions) optionsToUpdate
      else optionsToUpdate
    else optionsToUpdate in
  (newOptions, optionsToUpdate).

(** Lines 151-155: nothing to change. *)
Definition noChanges (optionsToUpdate : Options) : bool :=
  is_undefined (insertSpaces optionsToUpdate)
  && is_undefined (indentSize optionsToUpdate)
  && is_undefined (tabSize optionsToUpdate).

Definition promptItems : list string :=
  ["Yes"; "No"; "Always Apply For Workspace"].

(** Lines 191-196: the tab size to show when switching to spaces. *)
Definition fallbackTabSize (optionsToUpdate newOptions workspaceOptions : Options)
  : JsVal :=
  indentSize optionsToUpdate ?? indentSize newOptions
    ?? indentSize workspaceOptions ?? tabSize workspaceOptions ?? VNum 4.

Section Reconciler.

Variable host : HostSetter.

(** Lines 178-199: the style conversion. *)
Definition convertStyle (workspaceOptions newOptions optionsToUpdate : Options)
    (w : World) : Options * World :=
  if is_defined (insertSpaces optionsToUpdate) then
    let w :=
      if strict_eq (insertSpaces optionsToUpdate) (VBool false)
      then emit (EExecuteCommand "editor.action.indentationToTabs") w
      else w in
    let w := writeOption host FInsertSpaces (insertSpaces optionsToUpdate) w in
    let optionsToUpdate :=
      if strict_eq (insertSpaces optionsToUpdate) (VBool true)
         && is_undefined (tabSize optionsToUpdate)
      then set_tabSize
             (fallbackTabSize optionsToUpdate newOptions workspaceOptions)
             optionsToUpdate
      else optionsToUpdate in
    let w := writeOption host FTabSize (tabSize optionsToUpdate) w in
    (optionsToUpdate, w)
  else (optionsToUpdate, w).

(** Lines 201-212: the check of the style, then the size fields. *)
Definition writeSizes (optionsToUpdate : Options) (w : World) : World :=
  if strict_neq (insertSpaces (editor w)) (insertSpaces optionsToUpdate) then
    emit (EShowError "Failed to change editor indentation") w
  else
    let w :=
      if is_defined (indentSize optionsToUpdate)
      then writeOption host FIndentSize (indentSize optionsToUpdate) w
      else w in
    let w :=
      if is_defined (tabSize optionsToUpdate)
      then writeOption host FTabSize (indentSize optionsToUpdate) w
      else w in
    w.

(** Lines 161-212: the prompt and what follows it. *)
Definition promptAndApply (shouldConvert : Answer)
    (workspaceOptions newOptions optionsToUpdate : Options) (w : World)
  : World :=
  let w := emit (EShowWarning promptItems) w in
  if negb (picked shouldConvert "Yes"
           || picked shouldConvert "Always Apply For Workspace")
  then w
  else
    let w :=
      if picked shouldConvert "Always Apply For Workspace"
      then updateSetting "autoApply" (VBool true) w
      else w in
    let '(optionsToUpdate, w) :=
      convertStyle workspaceOptions newOptions optionsToUpdate w in
    writeSizes optionsToUpdate w.

(** The function returns, or throws before it has done anything. *)
Inductive Outcome : Type :=
  | Threw (message : string) (w : World)
  | Done (w : World).

(** [answer] is what the user does with the warning, if it is shown. *)
Definition applyTextEditorOptions (answer : Answer) (newOptions : Options)
    (w : World) : Outcome :=
  match toTextEditorResolvedIndentationOptions (editor w) with
  | inl message => Threw message w
  | inr currentOptions =>
    let workspaceOptions := getWorkspaceIndentationSettings (settings w) in
    let editorSettings := settings w in
    if isDeepStrictEqual newOptions currentOptions then Done w
    else
      let '(newOptions, optionsToUpdate) :=
        detectChanges (prop editorSettings "useTabSize")
                      workspaceOptions currentOptions newOptions in
      if noChanges optionsToUpdate then Done w
      else Done (promptAndApply answer workspaceOptions newOptions
                                optionsToUpdate w)
  end.

End Reconciler.


(** ** Documents and configuration resolution (api.ts, 17-48 and 246-287) *)

Record TextDocument : Type := mkTextDocument {
  languageId : string;
  isUntitled : bool;
  uri : string;           (* doc.uri, as its fsPath *)
  fileName : string
}.

(** The output channel: the lines logged so far, oldest first. *)
Definition Log : Type := list string.

(** An optional callback that reports on a relative path. *)
Definition Callback : Type := option (string -> string).

(** [cb?.(relativePath)], and [cb(relativePath)] under [if (cb)]. *)
Definition call (cb : Callback) (relativePath : string) (log : Log) : Log :=
  match cb with
  | Some line => log ++ [line relativePath]
  | None => log
  end.

(** [if (s)] and [!s] on a string that may be [undefined]. *)
Definition truthyString (s : option string) : bool :=
  match s with
  | Some s => negb (String.eqb s "")
  | None => false
  end.

(** [if (o)] on an object: every object is truthy, the empty one too. *)
Definition truthyObject (o : Props) : bool := true.

Section Resolution.

(** [editorconfig.parse(fileName, { unset: true })], of the [editorconfig]
    package: the merged properties that apply to a file. *)
Variable parse : string -> Props.

(** [workspace.asRelativePath(path, includeWorkspaceFolder)],
    [workspace.workspaceFolders] as the folders' uris, [Uri.joinPath]. *)
Variable asRelativePath : string -> option bool -> string.
Variable workspaceFolders : list string.
Variable joinPath : string -> string -> string.

Definition getFile (doc : TextDocument) : option string :=
  if negb (isUntitled doc) then Some (uri doc)
  else
    match workspaceFolders with
    | folder :: _ => Some (joinPath folder (fileName doc))
    | [] => None
    end.

(** Returns [(fileName, relativePath)]. *)
Definition resolveFile (doc : TextDocument) : option string * option string :=
  if String.eqb (languageId doc) "Log" then (None, None)
  else
    let file := getFile doc in
    (file, (fun f => asRelativePath f (Some true)) <$> file).

Definition resolveEditorConfigFromFiles (doc : TextDocument)
    (onBeforeResolve : Callback) (log : Log) : Props * Log :=
  let '(fileName, relativePath) := resolveFile doc in
  if negb (truthyString fileName) then (∅, log)
  else
    let log :=
      if truthyString relativePath
      then call onBeforeResolve (default "" relativePath) log
      else log in
    (parse (default "" fileName), log).

Definition resolveEditorConfigOptions (doc : TextDocument)
    (onBeforeResolve onEmptyConfig : Callback) (log : Log) : Options * Log :=
  let '(editorconfigSettings, log) :=
    resolveEditorConfigFromFiles doc onBeforeResolve log in
  if truthyObject editorconfigSettings then
    (fromEditorConfig editorconfigSettings, log)
  else
    let log :=
      match onEmptyConfig with
      | Some _ =>
        let rp := snd (resolveFile doc) in
        if truthyString rp then call onEmptyConfig (default "" rp) log
        else log
      | None => log
      end in
    (noOptions, log).

(** ** [DocumentWatcher] (DocumentWatcher.ts) *)

(** Lines 92-98. *)
Definition onEmptyConfig : Callback :=
  Some (fun relativePath => relativePath +:+ ": No configuration.").
Definition onBeforeResolve : Callback :=
  Some (fun relativePath => relativePath +:+ ": Using EditorConfig core...").

Inductive TextDocumentSaveReason : Type := Manual | AfterDelay | FocusOut.

Record TextEdit : Type := mkTextEdit {
  startLine : nat; startCharacter : nat;
  endLine : nat; endCharacter : nat;
  newText : string
}.

(** What [transform] returns: [edits] is an [Error] with its message, or
    an array of edits; [message] is optional. *)
Record TransformResult : Type := mkTransformResult {
  edits : string + list TextEdit;
  message : option string
}.

Inductive PreSaveTransformation : Type :=
  | SetEndOfLine
  | TrimTrailingWhitespace
  | InsertFinalNewline.

(** The [transform] method of the three classes of [./transformations]. *)
Variable transform :
  PreSaveTransformation -> Props -> TextDocument -> TextDocumentSaveReason ->
  TransformResult.

(** Lines 29-33. *)
Definition preSaveTransformations : list PreSaveTransformation :=
  [SetEndOfLine; TrimTrailingWhitespace; InsertFinalNewline].

(** Lines 127-141: the callback of [flatMap], on one transformer. *)
Definition runTransformer (relativePath : string)
    (editorconfigSettings : Props) (doc : TextDocument)
    (reason : TextDocumentSaveReason) (transformer : PreSaveTransformation)
    (log : Log) : list TextEdit * Log :=
  let r := transform transformer editorconfigSettings doc reason in
  match edits r with
  | inl errorMessage =>
    ([], log ++ [relativePath +:+ ": " +:+ errorMessage])
  | inr es =>
    let log :=
      if truthyString (message r)
      then log ++ [relativePath +:+ ": " +:+ default "" (message r)]
      else log in
    (es, log)
  end.

(** [flatMap] over the transformers, left to right. *)
Fixpoint flatMapTransformers (relativePath : string)
    (editorconfigSettings : Props) (doc : TextDocument)
    (reason : TextDocumentSaveReason)
    (transformers : list PreSaveTransformation) (log : Log)
  : list TextEdit * Log :=
  match transformers with
  | [] => ([], log)
  | transformer :: rest =>
    let '(es, log) :=
      runTransformer relativePath editorconfigSettings doc reason
                     transformer log in
    let '(es', log) :=
      flatMapTransformers relativePath editorconfigSettings doc reason
                          rest log in
    (es ++ es', log)
  end.

(** Lines 112-143. *)
Definition calculatePreSaveTransformations (doc : TextDocument)
    (reason : TextDocumentSaveReason) (log : Log) : list TextEdit * Log :=
  let '(editorconfigSettings, log) :=
    resolveEditorConfigFromFiles doc onBeforeResolve log in
  let relativePath := asRelativePath (fileName doc) None in
  if negb (truthyObject editorconfigSettings) then
    ([], log ++ [relativePath +:+ ": No configuration found for pre-save."])
  else
    flatMapTransformers relativePath editorconfigSettings doc reason
                        preSaveTransformations log.

(** Lines 145-160.  [active] is [editor?.document] together with the
    editor's view; the call of [applyTextEditorOptions] is the last thing
    the handler does. *)
Definition handleChangeActiveTextEditor (host : HostSetter) (answer : Answer)
    (active : option TextDocument) (w : World) (log : Log)
  : Outcome * Log :=
  match active with
  | None =>
    (Done w, log ++ ["No document in active text editor. Nothing to do."])
  | Some doc =>
    let '(desiredOptions, log) :=
      resolveEditorConfigOptions doc None onEmptyConfig log in
    (applyTextEditorOptions host answer desiredOptions w, log)
  end.

(** Lines 133-136 and 140: the edits one transformer adds to the collected
    edits, none when [edits] is an [Error]. *)
Definition contribution (editorconfigSettings : Props) (doc : TextDocument)
    (reason : TextDocumentSaveReason) (transformer : PreSaveTransformation)
  : list TextEdit :=
  match edits (transform transformer editorconfigSettings doc reason) with
  | inl _ => []
  | inr es => es
  end.

(** Lines 134 and 137-139: the lines one transformer adds to the log. *)
Definition diagnostics (relativePath : string) (editorconfigSettings : Props)
    (doc : TextDocument) (reason : TextDocumentSaveReason)
    (transformer : PreSaveTransformation) : list string :=
  let r := transform transformer editorconfigSettings doc reason in
  match edits r, message r with
  | inl failure, _ => [relativePath +:+ ": " +:+ failure]
  | inr _, Some text =>
    if String.eqb text "" then [] else [relativePath +:+ ": " +:+ text]
  | inr _, None => []
  end.

End Resolution.

(** ** [toEditorConfig] (api.ts, 343-370) *)

(** The result of [parseInt]: [NaN], an infinity, or an integer that a
    double holds. *)
Inductive JsNumber : Type :=
  | NaN
  | Infinity (negative : bool)
  | Num (n : Z).

Definition negate (x : JsNumber) : JsNumber :=
  match x with
  | NaN => NaN
  | Infinity negative => Infinity (negb negative)
  | Num n => Num (- n)
  end.

(** The Number value for a positive integer [m]: [m] itself when it has
    at most 53 significant bits, else [m] rounded to 53 significant bits,
    to the nearest and to the even one of two that are as near; an infinity
    from [2^1024] on. *)
Definition roundPositive (m : Z) : JsNumber :=
  let b := Z.log2 m in
  if b <? 53 then Num m
  else
    let shift := b - 52 in
    let q := m / 2 ^ shift in
    let r := m mod 2 ^ shift in
    let half := 2 ^ (shift - 1) in
    let up := (half <? r) || ((r =? half) && Z.odd q) in
    let rounded := (if up then q + 1 else q) * 2 ^ shift in
    if rounded <? 2 ^ 1024 then Num rounded else Infinity false.

(** The Number value for an integer. *)
Definition toNumber (m : Z) : JsNumber :=
  match m with
  | 0 => Num 0
  | Z.pos _ => roundPositive m
  | Z.neg _ => negate (roundPositive (- m))
  end.

(** The Number value for the positive integer [m] is [x]. *)
Definition roundsTo (m x : Z) : bool :=
  match roundPositive m with
  | Num y => y =? x
  | _ => false
  end.

(** The decimal numeral of an integer. *)
Definition decimalOf (m : Z) : string := NilZero.string_of_int (Z.to_int m).

(** The integer with the fewest significant digits whose Number value is
    [x], looked for among the multiples of [10^j], [10^(j-1)], ... next to
    [x]; of two with as few digits the one nearer to [x], and of two as near
    the one whose last significant digit is even. *)
Fixpoint shortestFrom (x : Z) (j : nat) : Z :=
  let p := 10 ^ Z.of_nat j in
  let lo := x / p * p in
  let hi := lo + p in
  let okLo := (0 <? lo) && roundsTo lo x in
  let okHi := roundsTo hi x in
  let next := match j with O => x | S j' => shortestFrom x j' end in
  if okLo && okHi then
    if (x - lo <? hi - x) || ((x - lo =? hi - x) && Z.even (lo / p))
    then lo else hi
  else if okLo then lo
  else if okHi then hi
  else next.

(** The search starts at a power of ten above [x]. *)
Definition shortest (x : Z) : Z :=
  shortestFrom x (Z.to_nat (Z.log2 x / 3) + 1).

Fixpoint stripZeros (s : string) : string :=
  match s with
  | String c rest =>
    match stripZeros rest with
    | EmptyString =>
      if Ascii.eqb c "0" then EmptyString else String c EmptyString
    | kept => String c kept
    end
  | EmptyString => EmptyString
  end.

(** [String(x)] for a positive integer [x] that a double holds: the digits
    of the shortest numeral that reads back as [x], in full below [10^21],
    with an exponent from there on. *)
Definition numberToString (x : Z) : string :=
  let m := shortest x in
  let digits := decimalOf m in
  if m <? 10 ^ 21 then digits
  else
    let e := decimalOf (Z.of_nat (String.length digits) - 1) in
    match stripZeros digits with
    | String c EmptyString => String c ("e+" +:+ e)
    | String c more => String c ("." +:+ more +:+ "e+" +:+ e)
    | EmptyString => digits
    end.

(** [String(v)]. *)
Definition stringOf (v : JsVal) : string :=
  match v with
  | VUndef => "undefined"
  | VNull => "null"
  | VBool true => "true"
  | VBool false => "false"
  | VNum 0 => "0"
  | VNum (Z.pos p) => numberToString (Z.pos p)
  | VNum (Z.neg p) => String "-" (numberToString (Z.pos p))
  | VStr s => s
  end.

(** White space and line terminators, among the characters below 256. *)
Definition isWhiteSpace (c : ascii) : bool :=
  existsb (Nat.eqb (nat_of_ascii c)) [9; 10; 11; 12; 13; 32; 160]%nat.

Fixpoint trimStart (s : string) : string :=
  match s with
  | String c rest => if isWhiteSpace c then trimStart rest else s
  | EmptyString => s
  end.

Definition digitValue (c : ascii) : option Z :=
  let code := nat_of_ascii c in
  if (48 <=? code)%nat && (code <=? 57)%nat
  then Some (Z.of_nat (code - 48))
  else None.

(** The value of the longest prefix of digits, [None] when it is empty. *)
Fixpoint digitPrefix (s : string) (acc : option Z) : option Z :=
  match s with
  | String c rest =>
    match digitValue c with
    | Some d => digitPrefix rest (Some (10 * default 0 acc + d))
    | None => acc
    end
  | EmptyString => acc
  end.

(** [parseInt(s, 10)]: leading white space is skipped, one sign is read,
    then the digits up to the first character that is not one; the result
    is the Number value for the integer they spell, with the sign. *)
Definition parseInt (s : string) : JsNumber :=
  let inputString := trimStart s in
  let '(negative, rest) :=
    match inputString with
    | String "-" rest => (true, rest)
    | String "+" rest => (false, rest)
    | _ => (false, inputString)
    end in
  match digitPrefix rest None with
  | Some mathInt =>
    if negative then negate (toNumber mathInt) else toNumber mathInt
  | None => NaN
  end.

(** Lines 367-369. *)
Definition resolveTabSize (tabSize : JsVal) : JsNumber :=
  if strict_eq tabSize (VStr "auto") then Num 4
  else parseInt (stringOf tabSize).

(** The [editorconfig.KnownProps] that [toEditorConfig] builds: a key that is
    not set is [None]. *)
Record KnownProps : Type := mkKnownProps {
  indent_style : option string;
  indent_size : option JsNumber;
  tab_width : option JsNumber
}.

Definition toEditorConfig (options : Options) : KnownProps :=
  let result := mkKnownProps None None None in
  if strict_eq (insertSpaces options) (VBool true) then
    let result :=
      mkKnownProps (Some "space") (indent_size result) (tab_width result) in
    if truthy (tabSize options)
    then mkKnownProps (indent_style result)
                      (Some (resolveTabSize (tabSize options)))
                      (tab_width result)
    else result
  else if strict_eq (insertSpaces options) (VBool false)
          || strict_eq (insertSpaces options) (VStr "auto") then
    let result :=
      mkKnownProps (Some "tab") (indent_size result) (tab_width result) in
    if truthy (tabSize options)
    then mkKnownProps (indent_style result) (indent_size result)
                      (Some (resolveTabSize (tabSize options)))
    else result
  else result.

(** The same object as a property map of [JsVal], for [fromEditorConfig] to
    read; there is none when a key holds [NaN] or an infinity, which are no
    [JsVal]. *)
Definition asProps (k : KnownProps) : option Props :=
  let put (key : string) (v : option JsVal) (p : Props) : Props :=
    match v with
    | Some v => <[key := v]> p
    | None => p
    end in
  match indent_size k, tab_width k with
  | Some NaN, _ | _, Some NaN => None
  | Some (Infinity _), _ | _, Some (Infinity _) => None
  | size, width =>
    Some (put "indent_style" (VStr <$> indent_style k)
            (put "indent_size"
               ((fun n => match n with Num n => VNum n | _ => VUndef end)
                  <$> size)
               (put "tab_width"
                  ((fun n => match n with Num n => VNum n | _ => VUndef end)
                     <$> width) ∅)))
  end.

(** * Vocabulary of the properties, and sample inputs *)

(** The live options are fully resolved. *)
Definition resolved (o : Options) : Prop :=
  is_boolean (insertSpaces o) = true
  /\ is_number (tabSize o) = true
  /\ is_number (indentSize o) = true.

(** The user picked one of the two accepting items. *)
Definition accepted (a : Answer) : bool :=
  picked a "Yes" || picked a "Always Apply For Workspace".

(** The tab size written at line 198. *)
Definition shownTabSize (workspaceOptions newOptions optionsToUpdate : Options)
  : JsVal :=
  if strict_eq (insertSpaces optionsToUpdate) (VBool true)
     && is_undefined (tabSize optionsToUpdate)
  then indentSize optionsToUpdate ?? indentSize newOptions
         ?? indentSize workspaceOptions ?? tabSize workspaceOptions ?? VNum 4
  else tabSize optionsToUpdate.

(** Sample views and configurations.  A view is the live [editor.options],
    the workspace's [editor] configuration and an empty trace. *)
Definition plainView : World :=
  mkWorld (mkOptions (VBool true) (VNum 4) (VNum 4))
          (<["tabSize" := VNum 4]> ∅) [].

Definition tabsView : World :=
  mkWorld (mkOptions (VBool false) (VNum 4) (VNum 4))
          (<["useTabSize" := VBool true]> (<["tabSize" := VNum 4]> ∅)) [].

Definition spacesView : World :=
  mkWorld (mkOptions (VBool true) (VNum 4) (VNum 4))
          (<["useTabSize" := VBool true]> (<["tabSize" := VNum 4]> ∅)) [].

Definition spaces2 : Props :=
  <["indent_style" := VStr "space"]> (<["indent_size" := VNum 2]> ∅).

Definition tabsOnly : Props := <["indent_style" := VStr "tab"]> ∅.

Definition spacesOnly : Props := <["indent_style" := VStr "space"]> ∅.

Definition tabsViewDefaults : World :=
  mkWorld (mkOptions (VBool false) (VNum 4) (VNum 4))
          (<["indentSize" := VNum 2]> (<["tabSize" := VNum 8]> ∅)) [].

Definition unmanagedTabs : World :=
  mkWorld (mkOptions (VBool true) (VNum 4) (VNum 4))
          (<["useTabSize" := VBool false]> (<["tabSize" := VNum 4]> ∅)) [].

(** What a run shows of itself: whether it threw, the editor's options it
    leaves, and what it asked of the host. *)
Definition observed (o : Outcome) : bool * Options * list Event :=
  match o with
  | Threw _ w => (true, editor w, trace w)
  | Done w => (false, editor w, trace w)
  end.

Definition autoApplyView : World :=
  mkWorld (mkOptions (VBool false) (VNum 4) (VNum 4))
          (<["autoApply" := VBool true]>
             (<["useTabSize" := VBool true]> (<["tabSize" := VNum 4]> ∅))) [].

(** A workspace with one file and no configuration file that applies to
    it. *)
Definition noConfig : string -> Props := fun _ => ∅.
Definition relativeToRoot : string -> option bool -> string :=
  fun path _ => path.
Definition underFolder : string -> string -> string :=
  fun folder name => folder +:+ "/" +:+ name.
Definition notes : TextDocument :=
  mkTextDocument "plaintext" false "notes.txt" "notes.txt".

Definition trimmed : TextEdit := mkTextEdit 0 1 0 2 "".
Definition appended : TextEdit :=
  mkTextEdit 1 0 1 0 (String (Ascii.ascii_of_nat 10) "").

(** The normalizer fails, the trimmer and the inserter have one edit each. *)
Definition normalizerFails : PreSaveTransformation -> Props -> TextDocument ->
    TextDocumentSaveReason -> TransformResult :=
  fun transformer _ _ _ =>
    match transformer with
    | SetEndOfLine => mkTransformResult (inl "unexpected end_of_line") None
    | TrimTrailingWhitespace => mkTransformResult (inr [trimmed]) None
    | InsertFinalNewline =>
      mkTransformResult (inr [appended]) (Some "insertFinalNewline(LF)")
    end.

(** The transformers of a file that needs no edit. *)
Definition nothingToDo : PreSaveTransformation -> Props -> TextDocument ->
    TextDocumentSaveReason -> TransformResult :=
  fun _ _ _ _ => mkTransformResult (inr []) None.

(** The value of a decimal numeral read after the digits that gave [acc]. *)
Fixpoint uintValue (d : Decimal.uint) (acc : Z) : Z :=
  match d with
  | Decimal.Nil => acc
  | Decimal.D0 l => uintValue l (10 * acc + 0)
  | Decimal.D1 l => uintValue l (10 * acc + 1)
  | Decimal.D2 l => uintValue l (10 * acc + 2)
  | Decimal.D3 l => uintValue l (10 * acc + 3)
  | Decimal.D4 l => uintValue l (10 * acc + 4)
  | Decimal.D5 l => uintValue l (10 * acc + 5)
  | Decimal.D6 l => uintValue l (10 * acc + 6)
  | Decimal.D7 l => uintValue l (10 * acc + 7)
  | Decimal.D8 l => uintValue l (10 * acc + 8)
  | Decimal.D9 l => uintValue l (10 * acc + 9)
  end.

(** A string that does not go on with a digit. *)
Definition noDigitAhead (s : string) : Prop :=
  match s with
  | String c _ => digitValue c = None
  | EmptyString => True
  end.

(** [spacesView] after an accepted switch to tabs that the view did not
    take. *)
Definition afterRefusedTabs : World :=
  mkWorld (mkOptions (VBool true) (VNum 4) VUndef)
          (<["useTabSize" := VBool true]> (<["tabSize" := VNum 4]> ∅))
          [EShowWarning promptItems;
           EExecuteCommand "editor.action.indentationToTabs";
           ESetOption FInsertSpaces (VBool false);
           ESetOption FTabSize VUndef;
           EShowError "Failed to change editor indentation"].

(** An untitled document, and a workspace whose only configured file is
    that document under the folder [work]. *)
Definition scratchpad : TextDocument :=
  mkTextDocument "plaintext" true "untitled:Untitled-1" "Untitled-1".

Definition oneConfig : string -> Props :=
  fun file => if String.eqb file "work/Untitled-1" then spaces2 else ∅.

(** * Properties *)

(** Case analysis on every test left in the goal. *)
Ltac case_ifs :=
  repeat match goal with
         | |- context [if ?c then _ else _] => destruct c eqn:?; simpl
         end.

(** ** Values *)

Lemma strict_eq_refl (a : JsVal) : strict_eq a a = true.
Proof.
  destruct a as [| |b|n|s]; simpl; trivial.
  - by destruct b.
  - apply Z.eqb_refl.
  - apply String.eqb_refl.
Qed.

Lemma strict_eq_true (a b : JsVal) : strict_eq a b = true <-> a = b.
Proof.
  split; [|intros ->; apply strict_eq_refl].
  destruct a as [| |x|x|x], b as [| |y|y|y]; simpl; try done.
  - by intros ->%Bool.eqb_prop.
  - by intros ->%Z.eqb_eq.
  - by intros ->%String.eqb_eq.
Qed.

Lemma strict_eq_false (a b : JsVal) : strict_eq a b = false <-> a ≠ b.
Proof.
  rewrite <- strict_eq_true. destruct (strict_eq a b); split; congruence.
Qed.

Lemma strict_neq_true (a b : JsVal) : strict_neq a b = true <-> a ≠ b.
Proof. unfold strict_neq. rewrite negb_true_iff. apply strict_eq_false. Qed.

Lemma is_defined_true (a : JsVal) : is_defined a = true <-> a ≠ VUndef.
Proof. apply strict_neq_true. Qed.

Lemma is_number_not_string (a : JsVal) (s : string) :
  is_number a = true -> strict_eq (VStr s) a = false.
Proof. by destruct a. Qed.

Lemma toResolved_resolved (o : Options) :
  resolved o -> toTextEditorResolvedIndentationOptions o = inr o.
Proof.
  intros (Hb & Ht & Hi). unfold toTextEditorResolvedIndentationOptions.
  rewrite Hb, Ht, Hi. simpl. by destruct o.
Qed.

Lemma toResolved_inr (o c : Options) :
  toTextEditorResolvedIndentationOptions o = inr c -> resolved o /\ c = o.
Proof.
  unfold toTextEditorResolvedIndentationOptions, resolved.
  destruct (is_boolean (insertSpaces o)), (is_number (tabSize o)),
    (is_number (indentSize o)); simpl; try discriminate.
  intros [= <-]. by destruct o.
Qed.

(** ** The mapper *)

(** [fromEditorConfig] reads three keys of the property map and nothing
    else. *)
Lemma fromEditorConfig_reads_three_keys (p q : Props) :
  prop p "indent_style" = prop q "indent_style" ->
  prop p "indent_size" = prop q "indent_size" ->
  prop p "tab_width" = prop q "tab_width" ->
  fromEditorConfig p = fromEditorConfig q.
Proof. unfold fromEditorConfig. by intros -> -> ->. Qed.

(** C7.  The mapper sends [indent_style] [space], [tab] and [unset] to
    [insertSpaces] true, false and undefined, and passes every other value of
    it through; it sends [indent_size] [tab] to the symbolic match-tab value,
    [unset] to undefined, and passes a number through; it sends [tab_width]
    [unset] to undefined and passes a number through. *)
Theorem fromEditorConfig_mapping (p : Props) :
  (prop p "indent_style" = VStr "space" ->
     insertSpaces (fromEditorConfig p) = VBool true)
  /\ (prop p "indent_style" = VStr "tab" ->
     insertSpaces (fromEditorConfig p) = VBool false)
  /\ (prop p "indent_style" = VStr "unset" ->
     insertSpaces (fromEditorConfig p) = VUndef)
  /\ (prop p "indent_style" ≠ VStr "space" ->
      prop p "indent_style" ≠ VStr "tab" ->
      prop p "indent_style" ≠ VStr "unset" ->
     insertSpaces (fromEditorConfig p) = prop p "indent_style")
  /\ (prop p "indent_size" = VStr "tab" ->
     indentSize (fromEditorConfig p) = matchTab)
  /\ (prop p "indent_size" = VStr "unset" ->
     indentSize (fromEditorConfig p) = VUndef)
  /\ (forall n, prop p "indent_size" = VNum n ->
     indentSize (fromEditorConfig p) = VNum n)
  /\ (prop p "tab_width" = VStr "unset" ->
     tabSize (fromEditorConfig p) = VUndef)
  /\ (forall n, prop p "tab_width" = VNum n ->
     tabSize (fromEditorConfig p) = VNum n).
Proof.
  unfold fromEditorConfig.
  repeat split.
  - intros H. rewrite H. by case_ifs.
  - intros H. rewrite H. by case_ifs.
  - intros H. rewrite H. by case_ifs.
  - intros H1%strict_eq_false H2%strict_eq_false H3%strict_eq_false.
    rewrite H1, H2, H3. by case_ifs.
  - intros H. rewrite H. by case_ifs.
  - intros H. rewrite H. by case_ifs.
  - intros n H. rewrite H. by case_ifs.
  - intros H. rewrite H. by case_ifs.
  - intros n H. rewrite H. by case_ifs.
Qed.

Lemma fromEditorConfig_mapping_witness :
  fromEditorConfig
    (<["indent_style" := VStr "space"]>
       (<["indent_size" := VNum 2]> (<["tab_width" := VNum 8]> ∅)))
  = mkOptions (VBool true) (VNum 2) (VNum 8)
  /\ insertSpaces
       (fromEditorConfig (<["indent_style" := VStr "foo"]> ∅)) = VStr "foo".
Proof.
  split.
  - pose proof (fromEditorConfig_mapping
      (<["indent_style" := VStr "space"]>
         (<["indent_size" := VNum 2]> (<["tab_width" := VNum 8]> ∅))))
      as (Hs & _ & _ & _ & _ & _ & Hn & _ & Hw).
    specialize (Hs eq_refl). specialize (Hn 2 eq_refl).
    specialize (Hw 8 eq_refl).
    destruct (fromEditorConfig _); simpl in *. by rewrite Hs, Hn, Hw.
  - pose proof (fromEditorConfig_mapping
      (<["indent_style" := VStr "foo"]> ∅)) as (_ & _ & _ & Ho & _).
    apply Ho; vm_compute; discriminate.
Defined.

(** ** The precondition on the live options *)

(** C10.  When the live [insertSpaces] is not a boolean, or the live
    [tabSize] or [indentSize] is not a number, [applyTextEditorOptions]
    throws, and it has asked nothing of the host by then: no prompt, no
    write, the world is the one it was called in. *)
Theorem applyTextEditorOptions_throws_unless_resolved
    (host : HostSetter) (answer : Answer) (newOptions : Options) (w : World) :
  is_boolean (insertSpaces (editor w)) = false
  \/ is_number (tabSize (editor w)) = false
  \/ is_number (indentSize (editor w)) = false ->
  exists message, applyTextEditorOptions host answer newOptions w = Threw message w.
Proof.
  intros H. unfold applyTextEditorOptions, toTextEditorResolvedIndentationOptions.
  destruct (is_boolean (insertSpaces (editor w))) eqn:Hb; simpl; [|eauto].
  destruct (is_number (tabSize (editor w))) eqn:Ht; simpl; [|eauto].
  destruct (is_number (indentSize (editor w))) eqn:Hi; simpl; [|eauto].
  destruct H as [H|[H|H]]; discriminate.
Qed.

Lemma applyTextEditorOptions_throws_unless_resolved_witness :
  exists message,
    applyTextEditorOptions assign (Some "Yes")
      (mkOptions (VBool true) (VNum 2) (VNum 2))
      (mkWorld (mkOptions (VStr "auto") (VNum 4) (VNum 4)) ∅ [])
    = Threw message (mkWorld (mkOptions (VStr "auto") (VNum 4) (VNum 4)) ∅ []).
Proof.
  apply (applyTextEditorOptions_throws_unless_resolved assign (Some "Yes")
           (mkOptions (VBool true) (VNum 2) (VNum 2))
           (mkWorld (mkOptions (VStr "auto") (VNum 4) (VNum 4)) ∅ [])).
  left. reflexivity.
Defined.

(** ** The diff *)

Section Diff.

Variables (useTabSize : JsVal) (workspaceOptions currentOptions : Options).

(** What line 120 leaves in [newOptions]. *)
Lemma detectChanges_newOptions (newOptions : Options) :
  fst (detectChanges useTabSize workspaceOptions currentOptions
          newOptions) =
  if strict_eq (indentSize newOptions) matchTab
  then set_tabSize (tabSize workspaceOptions ?? VNum 4) newOptions
  else newOptions.
Proof.
  unfold detectChanges, is_defined, strict_neq.
  destruct (strict_eq (indentSize newOptions) matchTab) eqn:Hm.
  - apply strict_eq_true in Hm. rewrite Hm. simpl. by case_ifs.
  - destruct (strict_eq (indentSize newOptions) VUndef); simpl; by case_ifs.
Qed.

Lemma detectChanges_insertSpaces (newOptions : Options) :
  insertSpaces (snd (detectChanges useTabSize workspaceOptions currentOptions
          newOptions)) =
  if is_defined (insertSpaces newOptions)
     && strict_neq (insertSpaces newOptions) (insertSpaces currentOptions)
  then insertSpaces newOptions else VUndef.
Proof.
  unfold detectChanges.
  destruct (is_defined (insertSpaces newOptions)
            && strict_neq (insertSpaces newOptions)
                 (insertSpaces currentOptions)); by case_ifs.
Qed.

Lemma detectChanges_indentSize (newOptions : Options) :
  indentSize (snd (detectChanges useTabSize workspaceOptions currentOptions
          newOptions)) =
  if is_defined (indentSize newOptions)
     && strict_neq (indentSize newOptions) (indentSize currentOptions)
  then indentSize newOptions else VUndef.
Proof.
  unfold detectChanges.
  destruct (is_defined (indentSize newOptions)) eqn:Hd; simpl.
  - destruct (strict_eq (indentSize newOptions) matchTab); simpl;
      destruct (strict_neq (indentSize newOptions) (indentSize currentOptions));
      by case_ifs.
  - by case_ifs.
Qed.

Lemma detectChanges_tabSize (newOptions : Options) :
  tabSize (snd (detectChanges useTabSize workspaceOptions currentOptions
          newOptions)) =
  if truthy useTabSize then tabSize (fst (detectChanges useTabSize workspaceOptions currentOptions
          newOptions)) else VUndef.
Proof.
  rewrite detectChanges_newOptions.
  unfold detectChanges, is_defined, strict_neq.
  destruct (strict_eq (indentSize newOptions) matchTab) eqn:Hm.
  - apply strict_eq_true in Hm. rewrite Hm. simpl.
    destruct (truthy useTabSize); case_ifs; trivial;
      symmetry; apply strict_eq_true; by apply negb_false_iff.
  - destruct (strict_eq (indentSize newOptions) VUndef); simpl;
      destruct (truthy useTabSize); case_ifs; trivial;
      symmetry; apply strict_eq_true; by apply negb_false_iff.
Qed.

End Diff.

(** C2, as the code has it.  A desired [indentSize] that is the symbolic
    match-tab value is not replaced by a number: it stays symbolic, it enters
    the diff as the symbolic value whenever the live options are resolved,
    and it is the desired [tabSize] that is set, to the workspace's default
    tab size or else to 4. *)
Theorem symbolic_indentSize_sets_tabSize
    (useTabSize : JsVal) (workspaceConfig : Props)
    (currentOptions newOptions : Options) :
  indentSize newOptions = matchTab ->
  is_number (indentSize currentOptions) = true ->
  let workspaceOptions := getWorkspaceIndentationSettings workspaceConfig in
  let r := detectChanges useTabSize workspaceOptions currentOptions newOptions in
  indentSize (fst r) = matchTab
  /\ tabSize (fst r) = tabSize workspaceOptions ?? VNum 4
  /\ indentSize (snd r) = matchTab.
Proof.
  intros Hsym Hnum ws r. subst r.
  rewrite detectChanges_newOptions, detectChanges_indentSize.
  rewrite Hsym. unfold strict_neq, matchTab.
  rewrite (is_number_not_string _ "tabSize" Hnum).
  by simpl.
Qed.

Lemma symbolic_indentSize_sets_tabSize_witness :
  let r :=
    detectChanges (VBool false)
      (getWorkspaceIndentationSettings (<["tabSize" := VNum 4]> ∅))
      (mkOptions (VBool true) (VNum 4) (VNum 4))
      (fromEditorConfig (<["indent_size" := VStr "tab"]> ∅)) in
  indentSize (fst r) = matchTab
  /\ tabSize (fst r) =
       tabSize (getWorkspaceIndentationSettings (<["tabSize" := VNum 4]> ∅))
         ?? VNum 4
  /\ indentSize (snd r) = matchTab.
Proof.
  apply (symbolic_indentSize_sets_tabSize (VBool false)
           (<["tabSize" := VNum 4]> ∅)
           (mkOptions (VBool true) (VNum 4) (VNum 4))
           (fromEditorConfig (<["indent_size" := VStr "tab"]> ∅)));
    reflexivity.
Defined.

(** C2, as the claim has it, fails: with [indent_size = tab], a workspace
    default tab size of 4 and a view that already shows 4, the desired
    [indentSize] that is compared, and the one in the diff, is the symbolic
    value, not 4; the diff is not empty and the warning is shown. *)
Lemma symbolic_indentSize_not_resolved :
  let desired := fromEditorConfig (<["indent_size" := VStr "tab"]> ∅) in
  let r :=
    detectChanges (prop (settings plainView) "useTabSize")
      (getWorkspaceIndentationSettings (settings plainView))
      (editor plainView) desired in
  tabSize (getWorkspaceIndentationSettings (settings plainView)) = VNum 4
  /\ indentSize (fst r) ≠ VNum 4
  /\ indentSize (snd r) ≠ VNum 4
  /\ indentSize (snd r) = VStr "tabSize"
  /\ applyTextEditorOptions assign None desired plainView
     = Done (emit (EShowWarning promptItems) plainView).
Proof.
  vm_compute. repeat split; (discriminate || reflexivity).
Qed.

(** ** The prompt and the writes *)

Section Apply.

Variable host : HostSetter.

Lemma applyTextEditorOptions_resolved (answer : Answer) (newOptions : Options)
    (w : World) :
  resolved (editor w) ->
  applyTextEditorOptions host answer newOptions w =
  let workspaceOptions := getWorkspaceIndentationSettings (settings w) in
  let r := detectChanges (prop (settings w) "useTabSize") workspaceOptions
             (editor w) newOptions in
  if isDeepStrictEqual newOptions (editor w) then Done w
  else if noChanges (snd r) then Done w
  else Done (promptAndApply host answer workspaceOptions (fst r) (snd r) w).
Proof.
  intros Hr. unfold applyTextEditorOptions.
  rewrite (toResolved_resolved _ Hr). simpl.
  by destruct (detectChanges _ _ _ _).
Qed.

(** A style change in the diff rules out both early returns. *)
Lemma style_change_reaches_prompt (useTabSize : JsVal)
    (workspaceOptions currentOptions newOptions : Options) :
  let d := snd (detectChanges useTabSize workspaceOptions currentOptions
                              newOptions) in
  is_defined (insertSpaces d) = true ->
  isDeepStrictEqual newOptions currentOptions = false
  /\ noChanges d = false.
Proof.
  intros d Hd. split.
  - subst d. rewrite detectChanges_insertSpaces in Hd.
    unfold isDeepStrictEqual, strict_neq in *.
    destruct (strict_eq (insertSpaces newOptions) (insertSpaces currentOptions));
      [|done].
    simpl in Hd. by rewrite andb_false_r in Hd.
  - unfold noChanges, is_undefined, is_defined, strict_neq in *.
    apply negb_true_iff in Hd. by rewrite Hd.
Qed.

Lemma promptAndApply_rejected (answer : Answer)
    (workspaceOptions newOptions optionsToUpdate : Options) (w : World) :
  accepted answer = false ->
  promptAndApply host answer workspaceOptions newOptions optionsToUpdate w
  = emit (EShowWarning promptItems) w.
Proof.
  unfold accepted, promptAndApply. by intros ->.
Qed.

(** The trace of a run that changes the style, once accepted. *)
Lemma promptAndApply_style_trace (answer : Answer)
    (workspaceOptions newOptions optionsToUpdate : Options) (w : World) :
  is_defined (insertSpaces optionsToUpdate) = true ->
  accepted answer = true ->
  let v := insertSpaces optionsToUpdate in
  let t := shownTabSize workspaceOptions newOptions optionsToUpdate in
  trace (promptAndApply host answer workspaceOptions newOptions
                        optionsToUpdate w)
  = trace w
    ++ [EShowWarning promptItems]
    ++ (if picked answer "Always Apply For Workspace"
        then [EUpdateSetting "autoApply" (VBool true)] else [])
    ++ (if strict_eq v (VBool false)
        then [EExecuteCommand "editor.action.indentationToTabs"] else [])
    ++ [ESetOption FInsertSpaces v; ESetOption FTabSize t]
    ++ (if strict_neq
             (insertSpaces (host FTabSize t (host FInsertSpaces v (editor w))))
             v
        then [EShowError "Failed to change editor indentation"]
        else
          (if is_defined (indentSize optionsToUpdate)
           then [ESetOption FIndentSize (indentSize optionsToUpdate)] else [])
          ++ (if is_defined t
              then [ESetOption FTabSize (indentSize optionsToUpdate)]
              else [])).
Proof.
  intros Hdef Hacc v t. subst v t.
  unfold promptAndApply, accepted in *. rewrite Hacc. simpl.
  unfold convertStyle. rewrite Hdef. unfold shownTabSize, fallbackTabSize.
  destruct (picked answer "Always Apply For Workspace");
    destruct (strict_eq (insertSpaces optionsToUpdate) (VBool false));
    destruct (strict_eq (insertSpaces optionsToUpdate) (VBool true)
              && is_undefined (tabSize optionsToUpdate));
    unfold writeSizes; simpl;
    match goal with
    | |- context [strict_neq ?a ?b] => destruct (strict_neq a b)
    end; simpl;
    destruct (is_defined (indentSize optionsToUpdate)); simpl;
    match goal with
    | |- context [is_defined ?a] => destruct (is_defined a)
    | |- _ => idtac
    end; simpl; rewrite <- ?app_assoc; reflexivity.
Qed.

End Apply.

(** ** Style changes *)

(** The trace of an accepted run whose diff changes the style. *)
Lemma accepted_style_change_trace
    (host : HostSetter) (answer : Answer) (newOptions : Options) (w : World) :
  resolved (editor w) ->
  is_defined
    (insertSpaces
       (snd (detectChanges (prop (settings w) "useTabSize")
               (getWorkspaceIndentationSettings (settings w))
               (editor w) newOptions))) = true ->
  accepted answer = true ->
  exists w',
    applyTextEditorOptions host answer newOptions w = Done w'
    /\ trace w' =
       let workspaceOptions := getWorkspaceIndentationSettings (settings w) in
       let r := detectChanges (prop (settings w) "useTabSize") workspaceOptions
                  (editor w) newOptions in
       let v := insertSpaces (snd r) in
       let t := shownTabSize workspaceOptions (fst r) (snd r) in
       trace w
       ++ [EShowWarning promptItems]
       ++ (if picked answer "Always Apply For Workspace"
           then [EUpdateSetting "autoApply" (VBool true)] else [])
       ++ (if strict_eq v (VBool false)
           then [EExecuteCommand "editor.action.indentationToTabs"] else [])
       ++ [ESetOption FInsertSpaces v; ESetOption FTabSize t]
       ++ (if strict_neq
                (insertSpaces
                   (host FTabSize t (host FInsertSpaces v (editor w)))) v
           then [EShowError "Failed to change editor indentation"]
           else
             (if is_defined (indentSize (snd r))
              then [ESetOption FIndentSize (indentSize (snd r))] else [])
             ++ (if is_defined t
                 then [ESetOption FTabSize (indentSize (snd r))] else [])).
Proof.
  intros Hres Hv Hacc.
  destruct (style_change_reaches_prompt _ _ _ _ Hv) as [Hne Hch].
  rewrite (applyTextEditorOptions_resolved _ _ _ _ Hres). cbv zeta.
  rewrite Hne, Hch.
  eexists. split; [reflexivity|].
  by apply promptAndApply_style_trace.
Qed.

(** C3, as the code has it.  When the diff holds an [insertSpaces] change and
    the user accepts, the run asks for the bulk re-indentation command only
    when the new style is tabs, and before it writes the flag; it writes the
    flag and then a tab size; it reads the live [insertSpaces] back, and when
    that differs from the style asked for it shows an error and writes
    nothing more; otherwise the writes of [indentSize] and [tabSize]
    follow. *)
Theorem style_change_converted_then_verified
    (host : HostSetter) (answer : Answer) (newOptions : Options) (w : World) :
  resolved (editor w) ->
  let workspaceOptions := getWorkspaceIndentationSettings (settings w) in
  let r := detectChanges (prop (settings w) "useTabSize") workspaceOptions
             (editor w) newOptions in
  let v := insertSpaces (snd r) in
  let t := shownTabSize workspaceOptions (fst r) (snd r) in
  is_defined v = true ->
  accepted answer = true ->
  exists w',
    applyTextEditorOptions host answer newOptions w = Done w'
    /\ trace w' =
       trace w
       ++ [EShowWarning promptItems]
       ++ (if picked answer "Always Apply For Workspace"
           then [EUpdateSetting "autoApply" (VBool true)] else [])
       ++ (if strict_eq v (VBool false)
           then [EExecuteCommand "editor.action.indentationToTabs"] else [])
       ++ [ESetOption FInsertSpaces v; ESetOption FTabSize t]
       ++ (if strict_neq
                (insertSpaces
                   (host FTabSize t (host FInsertSpaces v (editor w)))) v
           then [EShowError "Failed to change editor indentation"]
           else
             (if is_defined (indentSize (snd r))
              then [ESetOption FIndentSize (indentSize (snd r))] else [])
             ++ (if is_defined t
                 then [ESetOption FTabSize (indentSize (snd r))] else [])).
Proof.
  intros Hres ws r v t Hv Hacc. subst ws r v t.
  exact (accepted_style_change_trace host answer newOptions w
           Hres Hv Hacc).
Qed.

Lemma style_change_converted_then_verified_witness :
  exists w',
    applyTextEditorOptions keepsStyle (Some "Yes") (fromEditorConfig tabsOnly)
      spacesView = Done w'
    /\ trace w' =
       [EShowWarning promptItems;
        EExecuteCommand "editor.action.indentationToTabs";
        ESetOption FInsertSpaces (VBool false);
        ESetOption FTabSize VUndef;
        EShowError "Failed to change editor indentation"].
Proof.
  destruct (style_change_converted_then_verified keepsStyle (Some "Yes")
              (fromEditorConfig tabsOnly) spacesView)
    as (w' & Hrun & Htrace).
  - repeat split.
  - reflexivity.
  - reflexivity.
  - exists w'. split; [exact Hrun|]. rewrite Htrace. reflexivity.
Defined.

(** C3, as the claim has it, fails.  A switch to spaces writes the flag
    without asking for any bulk re-indentation; and in a switch to tabs that
    the view does not take, the tab size is written before the style is read
    back and found unchanged. *)
Lemma style_change_without_bulk_edit :
  (exists w',
     applyTextEditorOptions assign (Some "Yes") (fromEditorConfig spaces2)
       tabsView = Done w'
     /\ insertSpaces
          (snd (detectChanges (VBool true)
                  (getWorkspaceIndentationSettings (settings tabsView))
                  (editor tabsView) (fromEditorConfig spaces2)))
        = VBool true
     /\ ESetOption FInsertSpaces (VBool true) ∈ trace w'
     /\ forall c, EExecuteCommand c ∉ trace w')
  /\ (exists w',
     applyTextEditorOptions keepsStyle (Some "Yes") (fromEditorConfig tabsOnly)
       spacesView = Done w'
     /\ trace w' =
        [EShowWarning promptItems;
         EExecuteCommand "editor.action.indentationToTabs";
         ESetOption FInsertSpaces (VBool false);
         ESetOption FTabSize VUndef;
         EShowError "Failed to change editor indentation"]).
Proof.
  split.
  - eexists. split; [vm_compute; reflexivity|].
    split; [vm_compute; reflexivity|]. simpl. split.
    + set_solver.
    + intros c Hc. repeat (apply elem_of_cons in Hc as [Hc|Hc]; [discriminate|]).
      by apply elem_of_nil in Hc.
  - eexists. split; vm_compute; reflexivity.
Qed.

(** Outside a style change the check of line 202 compares the live boolean
    with [undefined]: an accepted run that changes sizes only shows the error
    and writes nothing. *)
Lemma size_change_alone_shows_error
    (host : HostSetter) (answer : Answer) (newOptions : Options) (w : World) :
  resolved (editor w) ->
  let workspaceOptions := getWorkspaceIndentationSettings (settings w) in
  let r := detectChanges (prop (settings w) "useTabSize") workspaceOptions
             (editor w) newOptions in
  isDeepStrictEqual newOptions (editor w) = false ->
  noChanges (snd r) = false ->
  insertSpaces (snd r) = VUndef ->
  accepted answer = true ->
  exists w',
    applyTextEditorOptions host answer newOptions w = Done w'
    /\ editor w' = editor w
    /\ trace w' =
       trace w
       ++ [EShowWarning promptItems]
       ++ (if picked answer "Always Apply For Workspace"
           then [EUpdateSetting "autoApply" (VBool true)] else [])
       ++ [EShowError "Failed to change editor indentation"].
Proof.
  intros Hres ws r Hne Hch Hv Hacc. subst ws r.
  rewrite (applyTextEditorOptions_resolved _ _ _ _ Hres). cbv zeta.
  rewrite Hne, Hch.
  eexists. split; [reflexivity|].
  unfold promptAndApply, accepted in *. rewrite Hacc. simpl.
  unfold convertStyle. rewrite Hv. simpl.
  destruct Hres as (Hb & _ & _).
  destruct (picked answer "Always Apply For Workspace"); unfold writeSizes;
    simpl; rewrite Hv; destruct (insertSpaces (editor w)); try discriminate;
    simpl; rewrite <- ?app_assoc; by split.
Qed.

(** ** The fallback tab size *)

(** A chain of [??] that ends in a number is never nullish. *)
Lemma fallback_chain_defined (a b c d : JsVal) (n : Z) :
  is_defined (a ?? b ?? c ?? d ?? VNum n) = true.
Proof. by destruct a, b, c, d. Qed.

(** The write of line 198.  When an accepted run switches the style to
    spaces and the diff holds no [tabSize], the tab size written next to the
    flag is the first of these that is neither [undefined] nor [null]: the
    diff's [indentSize], the desired [indentSize], the workspace's default
    indent size, the workspace's default tab size, 4.  Nothing is written to
    the editor before the flag; a later write to [tabSize], that of line 211,
    carries the diff's [indentSize], which may be undefined. *)
Lemma fallback_tabSize_written_next_to_flag
    (host : HostSetter) (answer : Answer) (newOptions : Options) (w : World) :
  resolved (editor w) ->
  let workspaceOptions := getWorkspaceIndentationSettings (settings w) in
  let r := detectChanges (prop (settings w) "useTabSize") workspaceOptions
             (editor w) newOptions in
  let chain :=
    indentSize (snd r) ?? indentSize (fst r) ?? indentSize workspaceOptions
      ?? tabSize workspaceOptions ?? VNum 4 in
  insertSpaces (snd r) = VBool true ->
  tabSize (snd r) = VUndef ->
  accepted answer = true ->
  exists w' pre post,
    applyTextEditorOptions host answer newOptions w = Done w'
    /\ trace w' =
       trace w ++ pre
       ++ [ESetOption FInsertSpaces (VBool true); ESetOption FTabSize chain]
       ++ post
    /\ (forall f x, ESetOption f x ∉ pre)
    /\ (forall x, ESetOption FTabSize x ∈ post ->
          x = indentSize (snd r)
          /\ (x = chain \/ x = VUndef \/ x = VNull)).
Proof.
  intros Hres ws r chain Hv Ht Hacc.
  assert (Hdef : is_defined (insertSpaces (snd r)) = true) by by rewrite Hv.
  destruct (accepted_style_change_trace host answer newOptions w
              Hres Hdef Hacc) as (w' & Hrun & Htrace).
  cbv zeta in Htrace. fold ws in Htrace. fold r in Htrace.
  assert (Hshown : shownTabSize ws (fst r) (snd r) = chain).
  { unfold shownTabSize. by rewrite Hv, Ht. }
  rewrite Hshown, Hv in Htrace. simpl in Htrace.
  exists w'.
  exists (EShowWarning promptItems
          :: (if picked answer "Always Apply For Workspace"
              then [EUpdateSetting "autoApply" (VBool true)] else [])).
  eexists. split; [exact Hrun|]. split.
  - rewrite Htrace. reflexivity.
  - split.
    + intros f x Hin. destruct (picked answer "Always Apply For Workspace");
        simpl in Hin;
        repeat (apply elem_of_cons in Hin as [Hin|Hin]; [discriminate|]);
        by apply elem_of_nil in Hin.
    + intros x Hin.
      assert (Hx : x = indentSize (snd r)).
      { destruct (strict_neq _ _); [|
          destruct (is_defined (indentSize (snd r)));
          destruct (is_defined chain)]; simpl in Hin;
          repeat (apply elem_of_cons in Hin as [Hin|Hin];
                  [by (discriminate || injection Hin)|]);
          by apply elem_of_nil in Hin. }
      split; [exact Hx|]. subst x chain.
      destruct (indentSize (snd r)); simpl; auto.
Qed.

(** C6, on the code.  The file asks for spaces and no size, the view has
    tabs, the workspace's default indent size is 2 and its default tab size
    8.  The diff holds the style only, the fallback tab size is 2 and it is
    written next to the flag; but the run then writes the diff's [indentSize],
    which is undefined, to [tabSize]: line 211 assigns
    [optionsToUpdate.indentSize] where line 210 tests
    [optionsToUpdate.tabSize].  The tab size the view is left with is not the
    fallback. *)
Theorem fallback_tabSize_overwritten :
  snd (detectChanges (prop (settings tabsViewDefaults) "useTabSize")
         (getWorkspaceIndentationSettings (settings tabsViewDefaults))
         (editor tabsViewDefaults) (fromEditorConfig spacesOnly))
  = mkOptions (VBool true) VUndef VUndef
  /\ fallbackTabSize (mkOptions (VBool true) VUndef VUndef)
       (fromEditorConfig spacesOnly)
       (getWorkspaceIndentationSettings (settings tabsViewDefaults))
     = VNum 2
  /\ applyTextEditorOptions assign (Some "Yes") (fromEditorConfig spacesOnly)
       tabsViewDefaults
     = Done (mkWorld (mkOptions (VBool true) (VNum 4) VUndef)
               (settings tabsViewDefaults)
               [EShowWarning promptItems;
                ESetOption FInsertSpaces (VBool true);
                ESetOption FTabSize (VNum 2);
                ESetOption FTabSize VUndef]).
Proof. repeat split; vm_compute; reflexivity. Qed.

(** ** Runs that change nothing *)

(** A desired intent that is undefined or equal to the live value on the
    style and on the indent size, and whose tab size is undefined or not
    managed, has no effect at all. *)
Lemma no_difference_no_effect
    (host : HostSetter) (answer : Answer) (newOptions : Options) (w : World) :
  resolved (editor w) ->
  insertSpaces newOptions = VUndef
    \/ insertSpaces newOptions = insertSpaces (editor w) ->
  indentSize newOptions = VUndef
    \/ indentSize newOptions = indentSize (editor w) ->
  truthy (prop (settings w) "useTabSize") = false
    \/ tabSize newOptions = VUndef ->
  applyTextEditorOptions host answer newOptions w = Done w.
Proof.
  intros Hres Hs Hi Ht.
  rewrite (applyTextEditorOptions_resolved _ _ _ _ Hres). cbv zeta.
  destruct (isDeepStrictEqual newOptions (editor w)); [done|].
  assert (Hno : noChanges
    (snd (detectChanges (prop (settings w) "useTabSize")
            (getWorkspaceIndentationSettings (settings w)) (editor w)
            newOptions)) = true); [|by rewrite Hno].
  unfold noChanges, is_undefined.
  rewrite detectChanges_insertSpaces, detectChanges_indentSize,
    detectChanges_tabSize, detectChanges_newOptions.
  destruct Hres as (_ & _ & Hnum).
  assert (Hsym : strict_eq (indentSize newOptions) matchTab = false).
  { destruct Hi as [-> | ->]; [done|].
    by destruct (indentSize (editor w)). }
  rewrite Hsym.
  assert (H1 : is_defined (insertSpaces newOptions)
               && strict_neq (insertSpaces newOptions)
                    (insertSpaces (editor w)) = false).
  { destruct Hs as [-> | ->]; [done|].
    unfold strict_neq. rewrite strict_eq_refl. apply andb_false_r. }
  assert (H2 : is_defined (indentSize newOptions)
               && strict_neq (indentSize newOptions)
                    (indentSize (editor w)) = false).
  { destruct Hi as [-> | ->]; [done|].
    unfold strict_neq. rewrite strict_eq_refl. apply andb_false_r. }
  rewrite H1, H2. simpl.
  destruct Ht as [-> | ->]; [done|]. by case_ifs.
Qed.

(** ** The [useTabSize] gate *)

(** C5.  With [useTabSize] not set, the diff never holds a [tabSize]; a
    desired intent that differs from the live options in the tab size only
    leads to no prompt and no write, whatever that tab size is; and a style
    that differs in the same run still leads to the prompt and, once
    accepted, to the write of the style. *)
Theorem useTabSize_false_drops_tabSize
    (host : HostSetter) (answer : Answer) (newOptions : Options) (w : World) :
  resolved (editor w) ->
  truthy (prop (settings w) "useTabSize") = false ->
  tabSize
    (snd (detectChanges (prop (settings w) "useTabSize")
            (getWorkspaceIndentationSettings (settings w))
            (editor w) newOptions)) = VUndef
  /\ ((insertSpaces newOptions = VUndef
        \/ insertSpaces newOptions = insertSpaces (editor w)) ->
      (indentSize newOptions = VUndef
        \/ indentSize newOptions = indentSize (editor w)) ->
      applyTextEditorOptions host answer newOptions w = Done w)
  /\ (insertSpaces newOptions ≠ VUndef ->
      insertSpaces newOptions ≠ insertSpaces (editor w) ->
      exists w' rest,
        applyTextEditorOptions host answer newOptions w = Done w'
        /\ trace w' = trace w ++ EShowWarning promptItems :: rest
        /\ (accepted answer = true ->
            ESetOption FInsertSpaces (insertSpaces newOptions) ∈ rest)).
Proof.
  intros Hres Hgate. split; [|split].
  - rewrite detectChanges_tabSize. by rewrite Hgate.
  - intros Hs Hi. apply no_difference_no_effect; auto.
  - intros Hdef Hne.
    assert (Hv : insertSpaces
      (snd (detectChanges (prop (settings w) "useTabSize")
              (getWorkspaceIndentationSettings (settings w))
              (editor w) newOptions)) = insertSpaces newOptions).
    { rewrite detectChanges_insertSpaces.
      apply is_defined_true in Hdef. apply strict_neq_true in Hne.
      by rewrite Hdef, Hne. }
    assert (Hd : is_defined (insertSpaces
      (snd (detectChanges (prop (settings w) "useTabSize")
              (getWorkspaceIndentationSettings (settings w))
              (editor w) newOptions))) = true).
    { rewrite Hv. by apply is_defined_true. }
    destruct (accepted answer) eqn:Hacc.
    + destruct (accepted_style_change_trace host answer
                  newOptions w Hres Hd Hacc) as (w' & Hrun & Htrace).
      cbv zeta in Htrace. rewrite Hv in Htrace.
      exists w'. eexists. split; [exact Hrun|]. split; [exact Htrace|].
      intros _. set_solver.
    + destruct (style_change_reaches_prompt _ _ _ _ Hd) as [Hneq Hch].
      rewrite (applyTextEditorOptions_resolved _ _ _ _ Hres). cbv zeta.
      rewrite Hneq, Hch, promptAndApply_rejected by done.
      eexists. exists []. split; [reflexivity|]. split; [reflexivity|done].
Qed.

Lemma useTabSize_false_drops_tabSize_witness :
  applyTextEditorOptions assign (Some "Yes")
    (mkOptions (VBool true) (VNum 4) (VNum 8)) unmanagedTabs
  = Done unmanagedTabs
  /\ exists w' rest,
      applyTextEditorOptions assign (Some "Yes")
        (mkOptions (VBool false) (VNum 4) (VNum 8)) unmanagedTabs = Done w'
      /\ trace w' = EShowWarning promptItems :: rest
      /\ ESetOption FInsertSpaces (VBool false) ∈ rest.
Proof.
  split.
  - destruct (useTabSize_false_drops_tabSize assign (Some "Yes")
                (mkOptions (VBool true) (VNum 4) (VNum 8)) unmanagedTabs)
      as (_ & Hsame & _).
    + repeat split.
    + reflexivity.
    + apply Hsame; right; reflexivity.
  - destruct (useTabSize_false_drops_tabSize assign (Some "Yes")
                (mkOptions (VBool false) (VNum 4) (VNum 8)) unmanagedTabs)
      as (_ & _ & Hstyle).
    + repeat split.
    + reflexivity.
    + destruct Hstyle as (w' & rest & Hrun & Htrace & Hwrite).
      * discriminate.
      * discriminate.
      * exists w', rest. split; [exact Hrun|]. split; [exact Htrace|].
        apply Hwrite. reflexivity.
Defined.

(** ** The prompt *)

Lemma promptAndApply_trace_head (host : HostSetter) (answer : Answer)
    (workspaceOptions newOptions optionsToUpdate : Options) (w : World) :
  exists rest,
    trace (promptAndApply host answer workspaceOptions newOptions
                          optionsToUpdate w)
    = trace w ++ EShowWarning promptItems :: rest.
Proof.
  unfold promptAndApply, convertStyle, writeSizes.
  case_ifs; eexists; rewrite <- ?app_assoc; reflexivity.
Qed.

(** Whenever the diff is not empty the warning is shown, and first. *)
Lemma nonempty_diff_prompts
    (host : HostSetter) (answer : Answer) (newOptions : Options) (w : World) :
  resolved (editor w) ->
  isDeepStrictEqual newOptions (editor w) = false ->
  noChanges
    (snd (detectChanges (prop (settings w) "useTabSize")
            (getWorkspaceIndentationSettings (settings w))
            (editor w) newOptions)) = false ->
  exists w' rest,
    applyTextEditorOptions host answer newOptions w = Done w'
    /\ trace w' = trace w ++ EShowWarning promptItems :: rest.
Proof.
  intros Hres Hne Hch.
  rewrite (applyTextEditorOptions_resolved _ _ _ _ Hres). cbv zeta.
  rewrite Hne, Hch.
  destruct (promptAndApply_trace_head host answer
              (getWorkspaceIndentationSettings (settings w))
              (fst (detectChanges (prop (settings w) "useTabSize")
                      (getWorkspaceIndentationSettings (settings w))
                      (editor w) newOptions))
              (snd (detectChanges (prop (settings w) "useTabSize")
                      (getWorkspaceIndentationSettings (settings w))
                      (editor w) newOptions)) w) as [rest Hrest].
  eexists. exists rest. split; [reflexivity|exact Hrest].
Qed.

(** "No", or dismissing the warning, ends the run: the editor's options and
    the workspace configuration are the ones the run started with. *)
Lemma reject_changes_nothing
    (host : HostSetter) (answer : Answer) (newOptions : Options) (w : World) :
  accepted answer = false ->
  match applyTextEditorOptions host answer newOptions w with
  | Done w' | Threw _ w' => editor w' = editor w /\ settings w' = settings w
  end.
Proof.
  intros Hrej. unfold applyTextEditorOptions.
  destruct (toTextEditorResolvedIndentationOptions (editor w)); [done|].
  destruct (isDeepStrictEqual _ _); [done|].
  destruct (detectChanges _ _ _ _) as [n d].
  destruct (noChanges d); [done|].
  by rewrite promptAndApply_rejected.
Qed.

Lemma promptAndApply_remember (host : HostSetter)
    (workspaceOptions newOptions optionsToUpdate : Options) (w : World) :
  let w' := promptAndApply host (Some "Always Apply For Workspace")
              workspaceOptions newOptions optionsToUpdate w in
  settings w' = <["autoApply" := VBool true]> (settings w)
  /\ exists rest,
      trace w' =
      trace w
      ++ EShowWarning promptItems
      :: EUpdateSetting "autoApply" (VBool true) :: rest.
Proof.
  unfold promptAndApply, convertStyle, writeSizes. simpl.
  case_ifs; (split; [reflexivity|]); eexists; rewrite <- ?app_assoc;
    reflexivity.
Qed.

(** "Always Apply For Workspace" stores [autoApply = true] in the workspace
    configuration, before any write to the editor. *)
Lemma remember_persists_autoApply
    (host : HostSetter) (newOptions : Options) (w : World) :
  resolved (editor w) ->
  isDeepStrictEqual newOptions (editor w) = false ->
  noChanges
    (snd (detectChanges (prop (settings w) "useTabSize")
            (getWorkspaceIndentationSettings (settings w))
            (editor w) newOptions)) = false ->
  exists w' rest,
    applyTextEditorOptions host (Some "Always Apply For Workspace")
      newOptions w = Done w'
    /\ settings w' = <["autoApply" := VBool true]> (settings w)
    /\ trace w' =
       trace w
       ++ EShowWarning promptItems
       :: EUpdateSetting "autoApply" (VBool true) :: rest.
Proof.
  intros Hres Hne Hch.
  rewrite (applyTextEditorOptions_resolved _ _ _ _ Hres). cbv zeta.
  rewrite Hne, Hch.
  destruct (promptAndApply_remember host
              (getWorkspaceIndentationSettings (settings w))
              (fst (detectChanges (prop (settings w) "useTabSize")
                      (getWorkspaceIndentationSettings (settings w))
                      (editor w) newOptions))
              (snd (detectChanges (prop (settings w) "useTabSize")
                      (getWorkspaceIndentationSettings (settings w))
                      (editor w) newOptions)) w) as [Hset [rest Hrest]].
  eexists. exists rest. split; [reflexivity|]. split; [exact Hset|exact Hrest].
Qed.

Lemma prop_insert_ne (s : Props) (key key' : string) (v : JsVal) :
  key ≠ key' -> prop (<[key := v]> s) key' = prop s key'.
Proof. intros Hne. unfold prop. by rewrite lookup_insert_ne. Qed.

Lemma promptAndApply_settings_irrelevant (host : HostSetter) (answer : Answer)
    (workspaceOptions newOptions optionsToUpdate e : Options)
    (s1 s2 : Props) (t : list Event) :
  let run s := promptAndApply host answer workspaceOptions newOptions
                 optionsToUpdate (mkWorld e s t) in
  editor (run s1) = editor (run s2) /\ trace (run s1) = trace (run s2).
Proof.
  unfold promptAndApply, convertStyle, writeSizes. simpl.
  destruct (accepted answer) eqn:Hacc; unfold accepted in Hacc; rewrite Hacc;
    simpl; [|done].
  destruct (picked answer "Always Apply For Workspace");
    destruct (is_defined (insertSpaces optionsToUpdate)); simpl;
    destruct (strict_eq (insertSpaces optionsToUpdate) (VBool false)); simpl;
    case_ifs; done.
Qed.

(** No run reads [autoApply]: the value stored under it changes neither the
    prompt nor the writes. *)
Lemma autoApply_is_not_read (host : HostSetter) (answer : Answer)
    (newOptions e : Options) (s : Props) (t : list Event) (v : JsVal) :
  observed (applyTextEditorOptions host answer newOptions
              (mkWorld e (<["autoApply" := v]> s) t))
  = observed (applyTextEditorOptions host answer newOptions (mkWorld e s t)).
Proof.
  unfold applyTextEditorOptions, getWorkspaceIndentationSettings. simpl.
  rewrite !prop_insert_ne by done.
  destruct (toTextEditorResolvedIndentationOptions e); [done|].
  destruct (isDeepStrictEqual _ _); [done|].
  destruct (detectChanges _ _ _ _) as [n d].
  destruct (noChanges d); [done|]. simpl.
  by destruct (promptAndApply_settings_irrelevant host answer
       (if truthy (prop s "detectIndentation") then noOptions
        else mkOptions (prop s "insertSpaces") (prop s "indentSize")
               (prop s "tabSize"))
       n d e (<["autoApply" := v]> s) s t) as [-> ->].
Qed.

(** C1, on the code.  The workspace has [autoApply = true] and the file asks
    for two spaces where the view has tabs: the warning is shown all the
    same, and with no answer to it nothing is applied. *)
Theorem autoApply_true_still_prompts :
  prop (settings autoApplyView) "autoApply" = VBool true
  /\ applyTextEditorOptions assign None (fromEditorConfig spaces2)
       autoApplyView
     = Done (emit (EShowWarning promptItems) autoApplyView).
Proof. split; vm_compute; reflexivity. Qed.

(** C4, on the code.  The file asks for a tab width of 4 and nothing else,
    the view already has a tab size of 4, and [useTabSize] is set: the
    [tabSize] enters the diff without being compared, and the warning is
    shown. *)
Theorem matching_tabSize_still_prompts :
  tabSize (fromEditorConfig (<["tab_width" := VNum 4]> ∅))
    = tabSize (editor spacesView)
  /\ insertSpaces (fromEditorConfig (<["tab_width" := VNum 4]> ∅)) = VUndef
  /\ indentSize (fromEditorConfig (<["tab_width" := VNum 4]> ∅)) = VUndef
  /\ snd (detectChanges (prop (settings spacesView) "useTabSize")
            (getWorkspaceIndentationSettings (settings spacesView))
            (editor spacesView)
            (fromEditorConfig (<["tab_width" := VNum 4]> ∅)))
     = mkOptions VUndef VUndef (VNum 4)
  /\ applyTextEditorOptions assign None
       (fromEditorConfig (<["tab_width" := VNum 4]> ∅)) spacesView
     = Done (emit (EShowWarning promptItems) spacesView).
Proof. repeat split; vm_compute; reflexivity. Qed.

(** ** The pre-save pipeline *)

Section Pipeline.

Variable parse : string -> Props.
Variable asRelativePath : string -> option bool -> string.
Variable workspaceFolders : list string.
Variable joinPath : string -> string -> string.
Variable transform :
  PreSaveTransformation -> Props -> TextDocument -> TextDocumentSaveReason ->
  TransformResult.

Lemma runTransformer_spec (relativePath : string) (cfg : Props)
    (doc : TextDocument) (reason : TextDocumentSaveReason)
    (transformer : PreSaveTransformation) (log : Log) :
  runTransformer transform relativePath cfg doc reason transformer log
  = (contribution transform cfg doc reason transformer,
     log ++ diagnostics transform relativePath cfg doc reason transformer).
Proof.
  unfold runTransformer, contribution, diagnostics.
  destruct (transform transformer cfg doc reason) as [[failure|es] [text|]];
    simpl; try done.
  - destruct (String.eqb text ""); simpl; [by rewrite app_nil_r|done].
  - by rewrite app_nil_r.
Qed.

(** Every transformer runs, in the order of the list, whatever the others
    returned. *)
Lemma flatMapTransformers_spec (relativePath : string) (cfg : Props)
    (doc : TextDocument) (reason : TextDocumentSaveReason)
    (transformers : list PreSaveTransformation) (log : Log) :
  flatMapTransformers transform relativePath cfg doc reason transformers log
  = (flat_map (contribution transform cfg doc reason) transformers,
     log ++ flat_map (diagnostics transform relativePath cfg doc reason) transformers).
Proof.
  revert log. induction transformers as [|t ts IH]; intros log; simpl.
  - by rewrite app_nil_r.
  - rewrite runTransformer_spec, IH. by rewrite <- app_assoc.
Qed.

(** C8.  The pipeline is the line-ending normalizer, then the
    trailing-whitespace trimmer, then the final-newline inserter.  The
    edits of a run are the contributions of the three, in that order, and
    its log lines are theirs, in that order; a transformer that reports a
    failure contributes no edit and one log line that carries its message,
    and the contributions of the other two are in the result all the
    same. *)
Theorem preSave_pipeline_order_and_failures
    (doc : TextDocument) (reason : TextDocumentSaveReason) (log : Log) :
  let resolution :=
    resolveEditorConfigFromFiles parse asRelativePath workspaceFolders
      joinPath doc (onBeforeResolve) log in
  let cfg := fst resolution in
  let relativePath := asRelativePath (fileName doc) None in
  preSaveTransformations
    = [SetEndOfLine; TrimTrailingWhitespace; InsertFinalNewline]
  /\ calculatePreSaveTransformations parse asRelativePath workspaceFolders
       joinPath transform doc reason log
     = (contribution transform cfg doc reason SetEndOfLine
        ++ contribution transform cfg doc reason TrimTrailingWhitespace
        ++ contribution transform cfg doc reason InsertFinalNewline,
        snd resolution
        ++ diagnostics transform relativePath cfg doc reason SetEndOfLine
        ++ diagnostics transform relativePath cfg doc reason TrimTrailingWhitespace
        ++ diagnostics transform relativePath cfg doc reason InsertFinalNewline)
  /\ forall transformer failure,
       edits (transform transformer cfg doc reason) = inl failure ->
       contribution transform cfg doc reason transformer = []
       /\ diagnostics transform relativePath cfg doc reason transformer
          = [relativePath +:+ ": " +:+ failure].
Proof.
  intros resolution cfg relativePath. split; [reflexivity|]. split.
  - unfold calculatePreSaveTransformations. fold resolution.
    subst cfg relativePath. destruct resolution as [cfg log0].
    unfold truthyObject. cbn [negb fst snd].
    rewrite flatMapTransformers_spec. simpl. by rewrite !app_nil_r.
  - intros t failure Hfail. unfold contribution, diagnostics.
    by rewrite Hfail.
Qed.

(** The callback for an empty configuration is never called: the resolved
    configuration is an object, and the test of line 38 holds for every
    object. *)
Lemma onEmptyConfig_never_called (doc : TextDocument)
    (before empty : Callback) (log : Log) :
  resolveEditorConfigOptions parse asRelativePath workspaceFolders joinPath
    doc before empty log
  = (fromEditorConfig
       (fst (resolveEditorConfigFromFiles parse asRelativePath
               workspaceFolders joinPath doc before log)),
     snd (resolveEditorConfigFromFiles parse asRelativePath
            workspaceFolders joinPath doc before log)).
Proof.
  unfold resolveEditorConfigOptions.
  by destruct (resolveEditorConfigFromFiles _ _ _ _ _ _ _).
Qed.

(** With an empty property map the view is left as it is, and nothing is
    asked of the user. *)
Lemma empty_config_no_effect (host : HostSetter) (answer : Answer)
    (doc : TextDocument) (w : World) (log : Log) :
  resolved (editor w) ->
  fst (resolveEditorConfigFromFiles parse asRelativePath workspaceFolders
         joinPath doc None log) = ∅ ->
  handleChangeActiveTextEditor parse asRelativePath workspaceFolders joinPath
    host answer (Some doc) w log
  = (Done w, log).
Proof.
  intros Hres Hempty. unfold handleChangeActiveTextEditor.
  rewrite onEmptyConfig_never_called, Hempty.
  f_equal.
  - apply no_difference_no_effect; auto.
  - unfold resolveEditorConfigFromFiles.
    destruct (resolveFile _ _ _ _) as [f rp]. by case_ifs.
Qed.

End Pipeline.

Lemma preSave_pipeline_order_and_failures_witness :
  calculatePreSaveTransformations noConfig relativeToRoot [] underFolder
    normalizerFails notes Manual []
  = ([trimmed; appended],
     ["notes.txt: Using EditorConfig core...";
      "notes.txt: unexpected end_of_line";
      "notes.txt: insertFinalNewline(LF)"])
  /\ contribution normalizerFails ∅ notes Manual SetEndOfLine = [].
Proof.
  destruct (preSave_pipeline_order_and_failures noConfig relativeToRoot []
              underFolder normalizerFails notes Manual [])
    as (_ & Hrun & Hfail).
  split.
  - rewrite Hrun. reflexivity.
  - apply (Hfail SetEndOfLine "unexpected end_of_line"). reflexivity.
Defined.

(** C9, on the code.  No configuration applies to [notes.txt]: the property
    map is empty, the view is left as it is and nothing is asked of the user,
    but the line that reports the missing configuration is not logged, on
    activation or before a save. *)
Theorem empty_config_is_not_reported :
  fst (resolveEditorConfigFromFiles noConfig relativeToRoot [] underFolder
         notes None []) = ∅
  /\ snd (resolveFile relativeToRoot [] underFolder notes) = Some "notes.txt"
  /\ resolveEditorConfigOptions noConfig relativeToRoot [] underFolder
       notes None onEmptyConfig []
     = (noOptions, [])
  /\ handleChangeActiveTextEditor noConfig relativeToRoot [] underFolder
       assign (Some "Yes") (Some notes) spacesView []
     = (Done spacesView, [])
  /\ calculatePreSaveTransformations noConfig relativeToRoot [] underFolder
       nothingToDo notes Manual []
     = ([], ["notes.txt: Using EditorConfig core..."]).
Proof. repeat split; vm_compute; reflexivity. Qed.

(** ** [parseInt] and [String] *)

Lemma digitPrefix_numeral (d : Decimal.uint) (acc : Z) (rest : string) :
  noDigitAhead rest ->
  digitPrefix (NilEmpty.string_of_uint d +:+ rest) (Some acc)
  = Some (uintValue d acc).
Proof.
  intros Hrest. revert acc.
  induction d as [|d IH|d IH|d IH|d IH|d IH|d IH|d IH|d IH|d IH|d IH];
    intros acc; simpl; try apply IH.
  destruct rest as [|c rest]; simpl; [done|].
  simpl in Hrest. by rewrite Hrest.
Qed.

Lemma uintValue_acc (d : Decimal.uint) (acc : positive) :
  uintValue d (Z.pos acc) = Z.pos (Pos.of_uint_acc d acc).
Proof.
  revert acc.
  induction d as [|d IH|d IH|d IH|d IH|d IH|d IH|d IH|d IH|d IH|d IH];
    intros acc; simpl; [done|..];
    match goal with
    | |- uintValue d ?z = Z.pos (Pos.of_uint_acc d ?q) =>
      replace z with (Z.pos q) by lia; apply IH
    end.
Qed.

Lemma uintValue_of_uint (d : Decimal.uint) :
  uintValue d 0 = Z.of_N (Pos.of_uint d).
Proof.
  induction d as [|d IH|d IH|d IH|d IH|d IH|d IH|d IH|d IH|d IH|d IH];
    simpl; [done|exact IH|..]; apply (uintValue_acc d).
Qed.

Lemma digitPrefix_NilZero (d : Decimal.uint) (rest : string) :
  noDigitAhead rest ->
  digitPrefix (NilZero.string_of_uint d +:+ rest) None
  = Some (Z.of_N (Pos.of_uint d)).
Proof.
  intros Hrest. rewrite <- uintValue_of_uint.
  destruct d; simpl;
    try (rewrite digitPrefix_numeral by done; reflexivity).
  destruct rest as [|c rest]; simpl; [done|].
  simpl in Hrest. by rewrite Hrest.
Qed.

Lemma NilZero_head (d : Decimal.uint) (rest : string) :
  exists c tail,
    NilZero.string_of_uint d +:+ rest = String c tail
    /\ isWhiteSpace c = false /\ c ≠ "-"%char /\ c ≠ "+"%char
    /\ c ≠ "a"%char.
Proof.
  destruct d; simpl; eexists; eexists; (split; [reflexivity|]);
    repeat split; done.
Qed.

(** The numeral of an integer, whatever follows it that is no digit, is
    read as the Number value for that integer. *)
Lemma parseInt_numeral (n : Z) (rest : string) :
  noDigitAhead rest ->
  parseInt (decimalOf n +:+ rest) = toNumber n.
Proof.
  intros Hrest. unfold parseInt, decimalOf, Z.to_int.
  destruct n as [|p|p]; simpl NilZero.string_of_int.
  - simpl. destruct rest as [|c rest]; simpl; [done|].
    simpl in Hrest. by rewrite Hrest.
  - destruct (NilZero_head (Pos.to_uint p) rest)
      as (c & tail & Heq & Hws & Hm & Hp & _).
    pose proof (digitPrefix_NilZero (Pos.to_uint p) rest Hrest) as Hd.
    rewrite Heq in *. simpl trimStart. rewrite Hws.
    rewrite DecimalPos.Unsigned.of_to in Hd.
    assert (Hrest' : (let '(negative, r) :=
               match String c tail with
               | String "-" r => (true, r)
               | String "+" r => (false, r)
               | _ => (false, String c tail)
               end in
             match digitPrefix r None with
             | Some mathInt =>
               if negative then negate (toNumber mathInt)
               else toNumber mathInt
             | None => NaN
             end) = toNumber (Z.pos p)); [|exact Hrest'].
    destruct c as [[|] [|] [|] [|] [|] [|] [|] [|]]; try done;
      by rewrite Hd.
  - change (String "-" (NilZero.string_of_uint (Pos.to_uint p)) +:+ rest)
      with (String "-" (NilZero.string_of_uint (Pos.to_uint p) +:+ rest)).
    simpl trimStart. cbv iota beta.
    rewrite (digitPrefix_NilZero (Pos.to_uint p) rest Hrest).
    by rewrite DecimalPos.Unsigned.of_to.
Qed.

Lemma append_empty (s : string) : s +:+ "" = s.
Proof.
  induction s as [|c s IH]; [done|].
  change (String c (s +:+ "") = String c s). by f_equal.
Qed.

Lemma numeral_not_auto (n : Z) (rest : string) :
  strict_eq (VStr (decimalOf n +:+ rest)) (VStr "auto") = false.
Proof.
  assert (Hhead : exists c tail,
            decimalOf n +:+ rest = String c tail /\ c ≠ "a"%char).
  { unfold decimalOf, Z.to_int. destruct n as [|p|p]; simpl.
    - eexists. eexists. split; [reflexivity|done].
    - destruct (NilZero_head (Pos.to_uint p) rest)
        as (c & tail & Heq & _ & _ & _ & Ha). eauto.
    - eexists. eexists. split; [reflexivity|done]. }
  destruct Hhead as (c & tail & -> & Hc).
  change (String.eqb (String c tail) "auto" = false).
  apply String.eqb_neq. intros [= ->]. by apply Hc.
Qed.

Lemma decimalOf_opp (m : Z) :
  0 < m -> decimalOf (- m) = String "-" (decimalOf m).
Proof. by destruct m. Qed.

(** *** The Number value of the numeral [String] prints *)

Lemma roundsTo_self (x : Z) :
  0 < x -> toNumber x = Num x -> roundsTo x x = true.
Proof.
  intros Hx. unfold roundsTo. destruct x; try done. simpl.
  intros ->. apply Z.eqb_refl.
Qed.

Lemma roundsTo_toNumber (m x : Z) :
  0 < m -> roundsTo m x = true -> toNumber m = Num x.
Proof.
  intros Hm. unfold roundsTo. destruct m; try done. simpl.
  destruct (roundPositive _); try done. by intros ->%Z.eqb_eq.
Qed.

Lemma shortestFrom_unfold (x : Z) (j : nat) :
  shortestFrom x j =
  let p := 10 ^ Z.of_nat j in
  let lo := x / p * p in
  let hi := lo + p in
  let okLo := (0 <? lo) && roundsTo lo x in
  let okHi := roundsTo hi x in
  let next := match j with O => x | S j' => shortestFrom x j' end in
  if okLo && okHi then
    if (x - lo <? hi - x) || ((x - lo =? hi - x) && Z.even (lo / p))
    then lo else hi
  else if okLo then lo
  else if okHi then hi
  else next.
Proof. by destruct j. Qed.

Lemma level_cases (P : Z -> Prop) (x p next : Z) :
  P next ->
  (0 < x / p * p -> roundsTo (x / p * p) x = true -> P (x / p * p)) ->
  (roundsTo (x / p * p + p) x = true -> P (x / p * p + p)) ->
  P (if (0 <? x / p * p) && roundsTo (x / p * p) x
        && roundsTo (x / p * p + p) x
     then
       if (x - x / p * p <? x / p * p + p - x)
          || ((x - x / p * p =? x / p * p + p - x)
              && Z.even (x / p * p / p))
       then x / p * p else x / p * p + p
     else if (0 <? x / p * p) && roundsTo (x / p * p) x then x / p * p
     else if roundsTo (x / p * p + p) x then x / p * p + p
     else next).
Proof.
  intros Hnext Hlo Hhi.
  destruct (0 <? x / p * p) eqn:Hpos;
    destruct (roundsTo (x / p * p) x) eqn:Hl;
    destruct (roundsTo (x / p * p + p) x) eqn:Hh; simpl;
    try destruct (_ || _); auto.
  all: apply Hlo; [by apply Z.ltb_lt|done].
Qed.

(** What the search returns is [x], or a multiple below [x] or above [x]
    that passed the test. *)
Lemma shortestFrom_cases (P : Z -> Prop) (x : Z) (j : nat) :
  P x ->
  (forall i, (i <= j)%nat ->
     0 < x / 10 ^ Z.of_nat i * 10 ^ Z.of_nat i ->
     roundsTo (x / 10 ^ Z.of_nat i * 10 ^ Z.of_nat i) x = true ->
     P (x / 10 ^ Z.of_nat i * 10 ^ Z.of_nat i)) ->
  (forall i, (i <= j)%nat ->
     roundsTo (x / 10 ^ Z.of_nat i * 10 ^ Z.of_nat i + 10 ^ Z.of_nat i) x
       = true ->
     P (x / 10 ^ Z.of_nat i * 10 ^ Z.of_nat i + 10 ^ Z.of_nat i)) ->
  P (shortestFrom x j).
Proof.
  intros Hx Hlo Hhi.
  induction j as [|j IH]; rewrite shortestFrom_unfold; cbv zeta.
  - apply level_cases; [done|apply Hlo; lia|apply Hhi; lia].
  - apply level_cases; [|apply Hlo; lia|apply Hhi; lia].
    apply IH; intros i Hi; [apply Hlo|apply Hhi]; lia.
Qed.

Lemma shortestFrom_roundsTo (x : Z) (j : nat) :
  roundsTo x x = true -> roundsTo (shortestFrom x j) x = true.
Proof. intros Hx. by apply shortestFrom_cases. Qed.

Lemma shortestFrom_pos (x : Z) (j : nat) : 0 < x -> 0 < shortestFrom x j.
Proof.
  intros Hx. apply shortestFrom_cases; [done|done|].
  intros i _ _.
  assert (0 < 10 ^ Z.of_nat i) by (apply Z.pow_pos_nonneg; lia).
  assert (0 <= x / 10 ^ Z.of_nat i) by (apply Z.div_pos; lia).
  nia.
Qed.

Lemma roundPositive_powers :
  roundPositive (10 ^ 21) = Num (10 ^ 21)
  /\ roundPositive (10 ^ 22) = Num (10 ^ 22)
  /\ roundPositive (10 ^ 23) = Num 99999999999999991611392
  /\ roundPositive (10 ^ 24) = Num 999999999999999983222784.
Proof. repeat split; vm_compute; reflexivity. Qed.

Lemma shortestFrom_below (x : Z) (j : nat) :
  0 < x < 10 ^ 21 -> (j <= 24)%nat -> shortestFrom x j < 10 ^ 21.
Proof.
  intros [Hpos Hx] Hj. apply shortestFrom_cases; [done| |].
  - intros i _ _ _.
    assert (Hp : 0 < 10 ^ Z.of_nat i) by (apply Z.pow_pos_nonneg; lia).
    pose proof (Z.mul_div_le x _ Hp). lia.
  - intros i Hi Hround.
    assert (Hp : 0 < 10 ^ Z.of_nat i) by (apply Z.pow_pos_nonneg; lia).
    destruct roundPositive_powers as (H21 & H22 & H23 & H24).
    destruct (decide (i <= 21)%nat) as [Hle|Hgt].
    + assert (Hsplit : 10 ^ 21 = 10 ^ Z.of_nat i * 10 ^ (21 - Z.of_nat i)).
      { rewrite <- Z.pow_add_r by lia. f_equal. lia. }
      assert (Hq : x / 10 ^ Z.of_nat i < 10 ^ (21 - Z.of_nat i)).
      { apply Z.div_lt_upper_bound; [done|]. by rewrite <- Hsplit. }
      assert (Hle21 : x / 10 ^ Z.of_nat i * 10 ^ Z.of_nat i + 10 ^ Z.of_nat i
                      <= 10 ^ 21).
      { rewrite Hsplit. nia. }
      destruct (decide (x / 10 ^ Z.of_nat i * 10 ^ Z.of_nat i
                        + 10 ^ Z.of_nat i = 10 ^ 21)) as [Heq|Hne]; [|lia].
      rewrite Heq in Hround. unfold roundsTo in Hround.
      rewrite H21 in Hround. apply Z.eqb_eq in Hround. lia.
    + assert (Hsmall : x / 10 ^ Z.of_nat i = 0).
      { apply Z.div_small. split; [lia|].
        assert (10 ^ 21 <= 10 ^ Z.of_nat i); [|lia].
        apply Z.pow_le_mono_r; lia. }
      rewrite Hsmall, Z.mul_0_l, Z.add_0_l in Hround.
      unfold roundsTo in Hround.
      assert (Hi' : i = 22%nat \/ i = 23%nat \/ i = 24%nat) by lia.
      destruct Hi' as [-> | [-> | ->]].
      * change (Z.of_nat 22) with 22 in Hround. rewrite H22 in Hround.
        apply Z.eqb_eq in Hround. subst x. clear -Hx. vm_compute in Hx.
        discriminate Hx.
      * change (Z.of_nat 23) with 23 in Hround. rewrite H23 in Hround.
        apply Z.eqb_eq in Hround. subst x. clear -Hx. vm_compute in Hx.
        discriminate Hx.
      * change (Z.of_nat 24) with 24 in Hround. rewrite H24 in Hround.
        apply Z.eqb_eq in Hround. subst x. clear -Hx. vm_compute in Hx.
        discriminate Hx.
Qed.

Lemma shortest_start (x : Z) :
  0 < x < 10 ^ 21 -> (Z.to_nat (Z.log2 x / 3) + 1 <= 24)%nat.
Proof.
  intros [Hpos Hx].
  assert (Hlog : Z.log2 x < 70).
  { apply Z.log2_lt_pow2; [done|].
    change (10 ^ 21) with 1000000000000000000000 in Hx.
    change (2 ^ 70) with 1180591620717411303424. lia. }
  pose proof (Z.log2_nonneg x).
  assert (Z.log2 x / 3 < 24) by (apply Z.div_lt_upper_bound; lia).
  assert (0 <= Z.log2 x / 3) by (apply Z.div_pos; lia).
  lia.
Qed.

(** Below [10^21] a number that a double holds prints as a numeral that
    reads back as that number. *)
Lemma numberToString_reads_back (x : Z) :
  0 < x < 10 ^ 21 ->
  toNumber x = Num x ->
  exists m, numberToString x = decimalOf m /\ 0 < m /\ toNumber m = Num x.
Proof.
  intros Hx Hdouble. exists (shortest x).
  pose proof (shortest_start x Hx) as Hstart.
  assert (Hbelow : shortest x < 10 ^ 21) by by apply shortestFrom_below.
  assert (Hm : 0 < shortest x) by (apply shortestFrom_pos; lia).
  split; [|split; [done|]].
  - unfold numberToString. cbv zeta.
    apply Z.ltb_lt in Hbelow. by rewrite Hbelow.
  - apply roundsTo_toNumber; [done|].
    apply shortestFrom_roundsTo, roundsTo_self; [lia|done].
Qed.

Lemma resolveTabSize_num (n : Z) :
  toNumber n = Num n ->
  Z.abs n < 10 ^ 21 ->
  resolveTabSize (VNum n) = Num n.
Proof.
  intros Hdouble Hn. unfold resolveTabSize.
  change (strict_eq (VNum n) (VStr "auto")) with false. cbv iota.
  destruct n as [|p|p].
  - reflexivity.
  - destruct (numberToString_reads_back (Z.pos p)) as (m & Hs & Hm & Hr);
      [lia|done|].
    change (stringOf (VNum (Z.pos p))) with (numberToString (Z.pos p)).
    rewrite Hs, <- (append_empty (decimalOf m)).
    by rewrite parseInt_numeral.
  - assert (Hpos : toNumber (Z.pos p) = Num (Z.pos p)).
    { unfold toNumber in Hdouble |- *.
      change (- Z.neg p) with (Z.pos p) in Hdouble.
      destruct (roundPositive (Z.pos p)); try done.
      simpl in Hdouble. injection Hdouble as Hd. f_equal. lia. }
    destruct (numberToString_reads_back (Z.pos p)) as (m & Hs & Hm & Hr);
      [lia|done|].
    change (stringOf (VNum (Z.neg p)))
      with (String "-" (numberToString (Z.pos p))).
    rewrite Hs, <- decimalOf_opp by done.
    rewrite <- (append_empty (decimalOf (- m))).
    rewrite parseInt_numeral by done.
    destruct m as [|q|q]; try done.
    change (toNumber (- Z.pos q)) with (negate (roundPositive (Z.pos q))).
    change (toNumber (Z.pos q)) with (roundPositive (Z.pos q)) in Hr.
    by rewrite Hr.
Qed.

(** X1.  [resolveTabSize] reads a string up to its first character that is
    no digit, and gives the Number value for the integer read: for every
    integer [n], a string made of the numeral of [n] and a rest that does not
    start with a digit resolves to the double nearest to [n], so that
    ['9007199254740993'] resolves to 9007199254740992.  A number below
    [10^21] in magnitude resolves to itself, and ['auto'] to 4. *)
Theorem resolveTabSize_reads_numbers (n : Z) (rest : string) :
  noDigitAhead rest ->
  resolveTabSize (VStr (decimalOf n +:+ rest)) = toNumber n
  /\ (toNumber n = Num n -> Z.abs n < 10 ^ 21 ->
      resolveTabSize (VNum n) = Num n)
  /\ resolveTabSize (VStr "auto") = Num 4.
Proof.
  intros Hrest. split; [|split; [|reflexivity]].
  - unfold resolveTabSize. rewrite numeral_not_auto.
    by apply parseInt_numeral.
  - apply resolveTabSize_num.
Qed.

Lemma resolveTabSize_reads_numbers_witness :
  resolveTabSize (VStr "9007199254740993px") = Num 9007199254740992
  /\ resolveTabSize (VNum (-12)) = Num (-12).
Proof.
  destruct (resolveTabSize_reads_numbers 9007199254740993 "px")
    as (Hstring & _); [reflexivity|].
  destruct (resolveTabSize_reads_numbers (-12) "") as (_ & Hnumber & _);
    [exact I|].
  split.
  - replace "9007199254740993px" with (decimalOf 9007199254740993 +:+ "px")
      by (vm_compute; reflexivity).
    rewrite Hstring. vm_compute. reflexivity.
  - apply Hnumber; vm_compute; reflexivity.
Defined.

(** ** [toEditorConfig] *)

(** X2.  [toEditorConfig] sets [indent_style] exactly for the styles
    [true], [false] and ['auto']; it never sets both [indent_size] and
    [tab_width]: a size goes to [indent_size] with spaces and to [tab_width]
    with tabs, and only when [tabSize] is truthy; for every other style the
    result is the empty object. *)
Theorem toEditorConfig_keys (options : Options) :
  let r := toEditorConfig options in
  (indent_style r = Some "space" <-> insertSpaces options = VBool true)
  /\ (indent_style r = Some "tab" <->
       insertSpaces options = VBool false
       \/ insertSpaces options = VStr "auto")
  /\ (indent_style r = None -> r = mkKnownProps None None None)
  /\ (indent_size r = None \/ tab_width r = None)
  /\ (is_Some (indent_size r) <->
       insertSpaces options = VBool true /\ truthy (tabSize options) = true)
  /\ (is_Some (tab_width r) <->
       (insertSpaces options = VBool false
        \/ insertSpaces options = VStr "auto")
       /\ truthy (tabSize options) = true).
Proof.
  unfold toEditorConfig, is_Some.
  destruct (insertSpaces options) as [| |[|]|n|s]; simpl;
    try (destruct (String.eqb_spec s "auto") as [->|Hs]; simpl);
    destruct (truthy (tabSize options)); simpl; naive_solver.
Qed.

Lemma toEditorConfig_keys_witness :
  indent_style (toEditorConfig (mkOptions (VStr "auto") (VNum 4) (VStr "auto")))
  = Some "tab"
  /\ tab_width (toEditorConfig (mkOptions (VStr "auto") (VNum 4) (VStr "auto")))
     = Some (Num 4).
Proof.
  destruct (toEditorConfig_keys (mkOptions (VStr "auto") (VNum 4) (VStr "auto")))
    as (_ & Htab & _).
  split.
  - apply Htab. right. reflexivity.
  - reflexivity.
Defined.

Lemma toEditorConfig_bool_num (b : bool) (size : JsVal) (n : Z) :
  n ≠ 0 ->
  toNumber n = Num n ->
  Z.abs n < 10 ^ 21 ->
  toEditorConfig (mkOptions (VBool b) size (VNum n))
  = if b then mkKnownProps (Some "space") (Some (Num n)) None
    else mkKnownProps (Some "tab") None (Some (Num n)).
Proof.
  intros Hn Hdouble Hbound. unfold toEditorConfig. simpl.
  assert (Hz : (n =? 0) = false) by by apply Z.eqb_neq.
  rewrite Hz. simpl. rewrite resolveTabSize_num by done. by destruct b.
Qed.

(** X3.  The mapper undoes [toEditorConfig] up to the field the size lands
    in: for a boolean style and a non-zero tab size [n], an integer that a
    double holds, below [10^21] in magnitude, the properties that
    [toEditorConfig] builds are mapped back to the same style, with [n] as the
    indent size for spaces and as the tab size for tabs, the other size
    undefined; the [indentSize] the options came with plays no part. *)
Theorem fromEditorConfig_toEditorConfig (b : bool) (size : JsVal) (n : Z) :
  n ≠ 0 ->
  toNumber n = Num n ->
  Z.abs n < 10 ^ 21 ->
  exists p,
    asProps (toEditorConfig (mkOptions (VBool b) size (VNum n))) = Some p
    /\ fromEditorConfig p
       = mkOptions (VBool b) (if b then VNum n else VUndef)
                   (if b then VUndef else VNum n).
Proof.
  intros Hn Hdouble Hbound.
  rewrite (toEditorConfig_bool_num b size n Hn Hdouble Hbound).
  destruct b; eexists; (split; [reflexivity|]);
    unfold fromEditorConfig, prop; simplify_map_eq; reflexivity.
Qed.

Lemma fromEditorConfig_toEditorConfig_witness :
  exists p,
    asProps (toEditorConfig (mkOptions (VBool true) (VNum 8) (VNum 2))) = Some p
    /\ fromEditorConfig p = mkOptions (VBool true) (VNum 2) VUndef.
Proof.
  apply (fromEditorConfig_toEditorConfig true (VNum 8) 2);
    [discriminate | vm_compute; reflexivity | vm_compute; reflexivity].
Defined.

Lemma toEditorConfig_ignores_indentSize (o : Options) (v : JsVal) :
  toEditorConfig (set_indentSize v o) = toEditorConfig o.
Proof. reflexivity. Qed.

Lemma toEditorConfig_indent_size_lost (p : Props) (v : JsVal) :
  toEditorConfig (fromEditorConfig (<["indent_size" := v]> p))
  = toEditorConfig (fromEditorConfig p).
Proof.
  unfold fromEditorConfig. cbv zeta.
  rewrite !(prop_insert_ne p "indent_size" "indent_style") by done.
  rewrite !(prop_insert_ne p "indent_size" "tab_width") by done.
  case_ifs; reflexivity.
Qed.

(** X4.  Mapping a property map to options and back keeps the style and
    moves the tab width, a non-zero integer that a double holds, below
    [10^21] in magnitude: with [indent_style] [space] it comes back as
    [indent_size], with [tab] as [tab_width]; the [indent_size] of the map
    is lost, whatever it was. *)
Theorem toEditorConfig_fromEditorConfig (p : Props) (b : bool) (n : Z) :
  prop p "indent_style" = VStr (if b then "space" else "tab") ->
  prop p "tab_width" = VNum n ->
  n ≠ 0 ->
  toNumber n = Num n ->
  Z.abs n < 10 ^ 21 ->
  toEditorConfig (fromEditorConfig p)
  = (if b then mkKnownProps (Some "space") (Some (Num n)) None
     else mkKnownProps (Some "tab") None (Some (Num n)))
  /\ forall v,
       toEditorConfig (fromEditorConfig (<["indent_size" := v]> p))
       = toEditorConfig (fromEditorConfig p).
Proof.
  intros Hstyle Hwidth Hn Hdouble Hbound. split.
  - rewrite <- (toEditorConfig_bool_num b
                  (indentSize (fromEditorConfig p)) n Hn Hdouble Hbound).
    f_equal. unfold fromEditorConfig. rewrite Hstyle, Hwidth.
    destruct b; simpl; by case_ifs.
  - intros v. apply toEditorConfig_indent_size_lost.
Qed.

Lemma toEditorConfig_fromEditorConfig_witness :
  toEditorConfig
    (fromEditorConfig
       (<["indent_style" := VStr "space"]>
          (<["indent_size" := VNum 2]> (<["tab_width" := VNum 8]> ∅))))
  = mkKnownProps (Some "space") (Some (Num 8)) None.
Proof.
  destruct (toEditorConfig_fromEditorConfig
              (<["indent_style" := VStr "space"]>
                 (<["indent_size" := VNum 2]> (<["tab_width" := VNum 8]> ∅)))
              true 8) as [Hback _].
  - reflexivity.
  - reflexivity.
  - discriminate.
  - vm_compute. reflexivity.
  - vm_compute. reflexivity.
  - exact Hback.
Defined.

(** ** The shape of a run *)

(** Membership of an event in an explicit list of events of other kinds. *)
Ltac no_such_event H :=
  repeat first
    [ apply elem_of_nil in H; contradiction
    | apply elem_of_app in H as [H|H]
    | match type of H with
      | _ ∈ (if ?c then _ else _) => destruct c
      end
    | apply elem_of_cons in H as [H|H]; [try discriminate|] ].

(** The four ways a run on resolved options ends: nothing to change; the
    warning declined; the warning accepted on a diff without a style; the
    warning accepted on a diff with a style. *)
Lemma run_cases
    (host : HostSetter) (answer : Answer) (newOptions : Options) (w w' : World) :
  resolved (editor w) ->
  applyTextEditorOptions host answer newOptions w = Done w' ->
  let workspaceOptions := getWorkspaceIndentationSettings (settings w) in
  let r := detectChanges (prop (settings w) "useTabSize") workspaceOptions
             (editor w) newOptions in
  let v := insertSpaces (snd r) in
  let t := shownTabSize workspaceOptions (fst r) (snd r) in
  w' = w
  \/ (accepted answer = false /\ w' = emit (EShowWarning promptItems) w)
  \/ (accepted answer = true /\ v = VUndef /\ editor w' = editor w
      /\ trace w' =
         trace w
         ++ [EShowWarning promptItems]
         ++ (if picked answer "Always Apply For Workspace"
             then [EUpdateSetting "autoApply" (VBool true)] else [])
         ++ [EShowError "Failed to change editor indentation"])
  \/ (accepted answer = true /\ v ≠ VUndef
      /\ trace w' =
         trace w
         ++ [EShowWarning promptItems]
         ++ (if picked answer "Always Apply For Workspace"
             then [EUpdateSetting "autoApply" (VBool true)] else [])
         ++ (if strict_eq v (VBool false)
             then [EExecuteCommand "editor.action.indentationToTabs"] else [])
         ++ [ESetOption FInsertSpaces v; ESetOption FTabSize t]
         ++ (if strict_neq
                  (insertSpaces
                     (host FTabSize t (host FInsertSpaces v (editor w)))) v
             then [EShowError "Failed to change editor indentation"]
             else
               (if is_defined (indentSize (snd r))
                then [ESetOption FIndentSize (indentSize (snd r))] else [])
               ++ (if is_defined t
                   then [ESetOption FTabSize (indentSize (snd r))] else []))).
Proof.
  intros Hres Hrun ws r v t. subst ws r v t.
  rewrite (applyTextEditorOptions_resolved _ _ _ _ Hres) in Hrun.
  cbv zeta in Hrun.
  destruct (isDeepStrictEqual newOptions (editor w)) eqn:Hne;
    [left; congruence|].
  destruct (noChanges _) eqn:Hch; [left; congruence|].
  right. destruct (accepted answer) eqn:Hacc.
  - right.
    destruct (is_defined (insertSpaces (snd (detectChanges
                (prop (settings w) "useTabSize")
                (getWorkspaceIndentationSettings (settings w))
                (editor w) newOptions)))) eqn:Hdef.
    + right. split; [done|]. split; [by apply is_defined_true|].
      destruct (accepted_style_change_trace host answer newOptions w
                  Hres Hdef Hacc) as (w2 & Hrun2 & Htrace).
      rewrite (applyTextEditorOptions_resolved _ _ _ _ Hres) in Hrun2.
      cbv zeta in Hrun2. rewrite Hne, Hch in Hrun2.
      assert (w2 = w') by congruence. subst w2. exact Htrace.
    + left. split; [done|].
      assert (Hv : insertSpaces (snd (detectChanges
                (prop (settings w) "useTabSize")
                (getWorkspaceIndentationSettings (settings w))
                (editor w) newOptions)) = VUndef).
      { unfold is_defined, strict_neq in Hdef.
        apply negb_false_iff in Hdef. by apply strict_eq_true. }
      split; [exact Hv|].
      destruct (size_change_alone_shows_error host answer newOptions w
                  Hres Hne Hch Hv Hacc) as (w2 & Hrun2 & Hed & Htrace).
      rewrite (applyTextEditorOptions_resolved _ _ _ _ Hres) in Hrun2.
      cbv zeta in Hrun2. rewrite Hne, Hch in Hrun2.
      assert (w2 = w') by congruence. subst w2. by split.
  - left. split; [done|].
    rewrite promptAndApply_rejected in Hrun by done. congruence.
Qed.

Lemma returns_only_if_resolved
    (host : HostSetter) (answer : Answer) (newOptions : Options) (w : World) :
  (exists w', applyTextEditorOptions host answer newOptions w = Done w') ->
  resolved (editor w).
Proof.
  intros [w' Hrun]. unfold resolved.
  unfold applyTextEditorOptions, toTextEditorResolvedIndentationOptions
    in Hrun.
  destruct (is_boolean (insertSpaces (editor w)));
    destruct (is_number (tabSize (editor w)));
    destruct (is_number (indentSize (editor w))); simpl in Hrun;
    try discriminate; done.
Qed.

(** X6.  Unless the user picks "Yes" or "Always Apply For Workspace", a run
    leaves the world as it was, but for the one warning it may have shown:
    no option is written, no command is run, no setting is stored and no
    error is shown. *)
Theorem nothing_without_consent
    (host : HostSetter) (answer : Answer) (newOptions : Options) (w : World) :
  accepted answer = false ->
  match applyTextEditorOptions host answer newOptions w with
  | Threw _ w' => w' = w
  | Done w' => w' = w \/ w' = emit (EShowWarning promptItems) w
  end.
Proof.
  intros Hrej. unfold applyTextEditorOptions.
  destruct (toTextEditorResolvedIndentationOptions (editor w)); [done|].
  destruct (isDeepStrictEqual _ _); [by left|].
  destruct (detectChanges _ _ _ _) as [n d].
  destruct (noChanges d); [by left|].
  right. by apply promptAndApply_rejected.
Qed.

Lemma nothing_without_consent_witness :
  applyTextEditorOptions assign (Some "No") (fromEditorConfig spaces2) tabsView
  = Done (emit (EShowWarning promptItems) tabsView).
Proof.
  pose proof (nothing_without_consent assign (Some "No")
                (fromEditorConfig spaces2) tabsView eq_refl) as H.
  destruct (applyTextEditorOptions assign (Some "No")
              (fromEditorConfig spaces2) tabsView) as [m w'|w'] eqn:Hrun.
  - vm_compute in Hrun. discriminate.
  - destruct H as [-> | ->]; [vm_compute in Hrun; discriminate|reflexivity].
Defined.

(** X7.  A run shows the warning at most once, and before anything else it
    asks of the host; it shows the error at most once, and as the last
    thing. *)
Theorem one_warning_first_one_error_last
    (host : HostSetter) (answer : Answer) (newOptions : Options) (w w' : World) :
  applyTextEditorOptions host answer newOptions w = Done w' ->
  exists rest,
    trace w' = trace w ++ rest
    /\ (rest = [] \/
        exists rest',
          rest = EShowWarning promptItems :: rest'
          /\ forall items, EShowWarning items ∉ rest')
    /\ (forall text, EShowError text ∈ rest ->
        exists before,
          rest = before ++ [EShowError text]
          /\ forall text', EShowError text' ∉ before).
Proof.
  intros Hrun.
  assert (Hres : resolved (editor w)).
  { apply (returns_only_if_resolved host answer
             newOptions w). eauto. }
  destruct (run_cases host answer newOptions w w' Hres Hrun)
    as [-> | [[_ ->] | [(_ & _ & _ & Ht) | (_ & _ & Ht)]]].
  - exists []. rewrite app_nil_r. split; [done|]. split; [by left|].
    intros text H. by apply elem_of_nil in H.
  - exists [EShowWarning promptItems]. split; [done|]. split.
    + right. exists []. split; [done|]. intros items H.
      by apply elem_of_nil in H.
    + intros text H. no_such_event H.
  - eexists. split; [exact Ht|]. split.
    + right. eexists. split; [reflexivity|]. intros items H. no_such_event H.
    + intros text H.
      exists (EShowWarning promptItems
              :: (if picked answer "Always Apply For Workspace"
                  then [EUpdateSetting "autoApply" (VBool true)] else [])).
      split.
      * simpl in H |- *. no_such_event H; by injection H as ->.
      * intros text' H'. no_such_event H'.
  - eexists. split; [exact Ht|]. split.
    + right. eexists. split; [reflexivity|]. intros items H. no_such_event H.
    + intros text H.
      match type of Ht with
      | _ = _ ++ ?a ++ ?b ++ ?c ++ ?d ++ _ => exists (a ++ b ++ c ++ d)
      end.
      destruct (strict_neq _ _).
      * split.
        -- rewrite <- !app_assoc.
           no_such_event H; injection H as ->; reflexivity.
        -- intros text' H'. no_such_event H'.
      * no_such_event H.
Qed.

Lemma one_warning_first_one_error_last_witness :
  exists rest,
    trace afterRefusedTabs = trace spacesView ++ rest
    /\ (rest = [] \/
        exists rest',
          rest = EShowWarning promptItems :: rest'
          /\ forall items, EShowWarning items ∉ rest')
    /\ (forall text, EShowError text ∈ rest ->
        exists before,
          rest = before ++ [EShowError text]
          /\ forall text', EShowError text' ∉ before).
Proof.
  apply (one_warning_first_one_error_last keepsStyle (Some "Yes")
           (fromEditorConfig tabsOnly) spacesView afterRefusedTabs).
  vm_compute. reflexivity.
Defined.

(** X8.  When the desired style is undefined or is the live style, a run
    writes nothing to the editor and runs no command, whatever sizes are
    asked for and whatever the user answers: the editor's options stay as
    they are, and a size that differs leads to the warning and, once
    accepted, to the error message only. *)
Theorem sizes_not_written_without_style_change
    (host : HostSetter) (answer : Answer) (newOptions : Options) (w w' : World) :
  insertSpaces newOptions = VUndef
    \/ insertSpaces newOptions = insertSpaces (editor w) ->
  applyTextEditorOptions host answer newOptions w = Done w' ->
  editor w' = editor w
  /\ exists rest,
      trace w' = trace w ++ rest
      /\ (forall f v, ESetOption f v ∉ rest)
      /\ (forall c, EExecuteCommand c ∉ rest).
Proof.
  intros Hstyle Hrun.
  assert (Hres : resolved (editor w)).
  { apply (returns_only_if_resolved host answer
             newOptions w). eauto. }
  assert (Hv : insertSpaces (snd (detectChanges
                (prop (settings w) "useTabSize")
                (getWorkspaceIndentationSettings (settings w))
                (editor w) newOptions)) = VUndef).
  { rewrite detectChanges_insertSpaces.
    destruct Hstyle as [-> | ->]; [done|].
    unfold strict_neq. rewrite strict_eq_refl. by rewrite andb_false_r. }
  destruct (run_cases host answer newOptions w w' Hres Hrun)
    as [-> | [[_ ->] | [(_ & _ & He & Ht) | (_ & Hne & _)]]].
  - split; [done|]. exists []. rewrite app_nil_r. split; [done|].
    split; intros; apply not_elem_of_nil.
  - split; [done|]. exists [EShowWarning promptItems]. split; [done|].
    split; [intros f v Hin|intros c Hin]; no_such_event Hin.
  - split; [done|]. eexists. split; [exact Ht|].
    split; [intros f v Hin|intros c Hin]; no_such_event Hin.
  - by rewrite Hv in Hne.
Qed.

Lemma sizes_not_written_without_style_change_witness :
  editor (emit (EShowError "Failed to change editor indentation")
            (emit (EShowWarning promptItems) spacesView))
  = editor spacesView.
Proof.
  apply (sizes_not_written_without_style_change assign (Some "Yes")
           (mkOptions (VBool true) (VNum 2) VUndef) spacesView
           (emit (EShowError "Failed to change editor indentation")
              (emit (EShowWarning promptItems) spacesView))).
  - right. reflexivity.
  - vm_compute. reflexivity.
Defined.

(** X9.  Every write of [insertSpaces] carries the desired style, which is
    not the live one; every write of [indentSize] carries the desired indent
    size, which is not the live one; the only command ever run is the
    conversion to tabs, and only when the desired style is tabs. *)
Theorem writes_carry_desired_values
    (host : HostSetter) (answer : Answer) (newOptions : Options) (w w' : World) :
  applyTextEditorOptions host answer newOptions w = Done w' ->
  exists rest,
    trace w' = trace w ++ rest
    /\ (forall v, ESetOption FInsertSpaces v ∈ rest ->
        v = insertSpaces newOptions /\ v ≠ insertSpaces (editor w))
    /\ (forall v, ESetOption FIndentSize v ∈ rest ->
        v = indentSize newOptions /\ v ≠ indentSize (editor w))
    /\ (forall c, EExecuteCommand c ∈ rest ->
        c = "editor.action.indentationToTabs"
        /\ insertSpaces newOptions = VBool false).
Proof.
  intros Hrun.
  assert (Hres : resolved (editor w)).
  { apply (returns_only_if_resolved host answer
             newOptions w). eauto. }
  destruct (run_cases host answer newOptions w w' Hres Hrun)
    as [-> | [[_ ->] | [(_ & _ & _ & Ht) | (_ & Hne & Ht)]]].
  - exists []. rewrite app_nil_r. split; [done|].
    split; [|split]; intros ? Hin; by apply elem_of_nil in Hin.
  - exists [EShowWarning promptItems]. split; [done|].
    split; [|split]; intros ? Hin; no_such_event Hin.
  - eexists. split; [exact Ht|].
    split; [|split]; intros ? Hin; no_such_event Hin.
  - eexists. split; [exact Ht|].
    rewrite detectChanges_insertSpaces in Hne.
    rewrite detectChanges_insertSpaces, detectChanges_indentSize.
    destruct (is_defined (insertSpaces newOptions)
              && strict_neq (insertSpaces newOptions)
                   (insertSpaces (editor w))) eqn:Hs; [|done].
    apply andb_prop in Hs as [_ Hs%strict_neq_true].
    split; [|split].
    + intros v H. no_such_event H; injection H as ->; done.
    + intros v H.
      destruct (is_defined (indentSize newOptions)
                && strict_neq (indentSize newOptions)
                     (indentSize (editor w))) eqn:Hi.
      * apply andb_prop in Hi as [_ Hi%strict_neq_true].
        no_such_event H; injection H as ->; done.
      * no_such_event H.
    + intros c H.
      destruct (strict_eq (insertSpaces newOptions) (VBool false)) eqn:Hf.
      * apply strict_eq_true in Hf.
        no_such_event H; injection H as ->; done.
      * no_such_event H.
Qed.

Lemma writes_carry_desired_values_witness :
  exists rest,
    trace afterRefusedTabs = trace spacesView ++ rest
    /\ (forall v, ESetOption FInsertSpaces v ∈ rest ->
        v = insertSpaces (fromEditorConfig tabsOnly)
        /\ v ≠ insertSpaces (editor spacesView))
    /\ (forall v, ESetOption FIndentSize v ∈ rest ->
        v = indentSize (fromEditorConfig tabsOnly)
        /\ v ≠ indentSize (editor spacesView))
    /\ (forall c, EExecuteCommand c ∈ rest ->
        c = "editor.action.indentationToTabs"
        /\ insertSpaces (fromEditorConfig tabsOnly) = VBool false).
Proof.
  apply (writes_carry_desired_values keepsStyle (Some "Yes")
           (fromEditorConfig tabsOnly) spacesView afterRefusedTabs).
  vm_compute. reflexivity.
Defined.

(** ** An accepted switch to spaces *)

Lemma switch_to_spaces_result
    (answer : Answer) (newOptions : Options) (w : World) (k : Z) :
  resolved (editor w) ->
  insertSpaces (editor w) = VBool false ->
  insertSpaces newOptions = VBool true ->
  indentSize newOptions = VNum k ->
  indentSize (editor w) ≠ VNum k ->
  accepted answer = true ->
  exists w',
    applyTextEditorOptions assign answer newOptions w = Done w'
    /\ editor w' = mkOptions (VBool true) (VNum k) (VNum k)
    /\ forall key, key ≠ "autoApply" -> prop (settings w') key = prop (settings w) key.
Proof.
  intros Hres Hlive Hstyle Hsize Hne Hacc.
  rewrite (applyTextEditorOptions_resolved _ _ _ _ Hres). cbv zeta.
  destruct w as [[i s t] st tr]. destruct newOptions as [ni ns nt].
  simpl in *. subst i ni ns.
  destruct Hres as (_ & Ht & Hs). simpl in Ht, Hs.
  destruct s as [| | |n0|]; try discriminate.
  assert (Hk : (k =? n0) = false).
  { apply Z.eqb_neq. intros ->. by apply Hne. }
  unfold isDeepStrictEqual, detectChanges, noChanges. simpl.
  unfold strict_neq. simpl. rewrite Hk. simpl.
  unfold promptAndApply. unfold accepted in Hacc. rewrite Hacc. simpl.
  unfold convertStyle, writeSizes, fallbackTabSize, is_defined, is_undefined,
    strict_neq.
  destruct (picked answer "Always Apply For Workspace");
    destruct (strict_eq nt VUndef) eqn:Hnt; simpl;
    destruct (truthy (prop st "useTabSize")); simpl; rewrite ?Hnt; simpl;
    rewrite ?Hnt; simpl;
    eexists; (split; [reflexivity|]); (split; [reflexivity|]);
    intros key Hkey; simpl; try done; by apply prop_insert_ne.
Qed.

(** X10.  An accepted switch from tabs to spaces with a numeric indent size
    that differs from the live one leaves the editor, when its options are
    plain properties, with [insertSpaces] true and both sizes equal to that
    indent size, whatever tab width was asked for. *)
Theorem switch_to_spaces_final_state
    (answer : Answer) (newOptions : Options) (w : World) (k : Z) :
  resolved (editor w) ->
  insertSpaces (editor w) = VBool false ->
  insertSpaces newOptions = VBool true ->
  indentSize newOptions = VNum k ->
  indentSize (editor w) ≠ VNum k ->
  accepted answer = true ->
  exists w',
    applyTextEditorOptions assign answer newOptions w = Done w'
    /\ editor w' = mkOptions (VBool true) (VNum k) (VNum k).
Proof.
  intros Hres Hlive Hstyle Hsize Hne Hacc.
  destruct (switch_to_spaces_result answer newOptions w k
              Hres Hlive Hstyle Hsize Hne Hacc) as (w' & Hrun & Hed & _).
  eauto.
Qed.

Lemma switch_to_spaces_final_state_witness :
  exists w',
    applyTextEditorOptions assign (Some "Yes")
      (mkOptions (VBool true) (VNum 2) (VNum 8)) tabsView = Done w'
    /\ editor w' = mkOptions (VBool true) (VNum 2) (VNum 2).
Proof.
  apply (switch_to_spaces_final_state (Some "Yes")
           (mkOptions (VBool true) (VNum 2) (VNum 8)) tabsView 2);
    try reflexivity.
  - repeat split.
  - discriminate.
Defined.

(** X11.  After such a switch a second run with the same desired options
    changes nothing and asks nothing, on any view and whatever the answer
    would be, provided the tab size is not managed: the desired [tabSize] is
    undefined or [useTabSize] is off. *)
Theorem second_run_changes_nothing
    (answer : Answer) (newOptions : Options) (w : World) (k : Z)
    (host' : HostSetter) (answer' : Answer) :
  resolved (editor w) ->
  insertSpaces (editor w) = VBool false ->
  insertSpaces newOptions = VBool true ->
  indentSize newOptions = VNum k ->
  indentSize (editor w) ≠ VNum k ->
  accepted answer = true ->
  truthy (prop (settings w) "useTabSize") = false
    \/ tabSize newOptions = VUndef ->
  exists w',
    applyTextEditorOptions assign answer newOptions w = Done w'
    /\ applyTextEditorOptions host' answer' newOptions w' = Done w'.
Proof.
  intros Hres Hlive Hstyle Hsize Hne Hacc Hgate.
  destruct (switch_to_spaces_result answer newOptions w k
              Hres Hlive Hstyle Hsize Hne Hacc) as (w' & Hrun & Hed & Hset).
  exists w'. split; [exact Hrun|].
  apply no_difference_no_effect.
  - rewrite Hed. repeat split.
  - right. by rewrite Hed.
  - right. by rewrite Hed.
  - destruct Hgate as [Hgate|Hgate]; [left|by right].
    by rewrite Hset.
Qed.

Lemma second_run_changes_nothing_witness :
  exists w',
    applyTextEditorOptions assign (Some "Always Apply For Workspace")
      (fromEditorConfig spaces2) tabsView = Done w'
    /\ applyTextEditorOptions keepsStyle None (fromEditorConfig spaces2) w'
       = Done w'.
Proof.
  apply (second_run_changes_nothing (Some "Always Apply For Workspace")
           (fromEditorConfig spaces2) tabsView 2 keepsStyle None);
    try reflexivity.
  - repeat split.
  - discriminate.
  - right. reflexivity.
Defined.

(** ** What a run reads and writes of the workspace configuration *)

Lemma detectChanges_depends (u1 u2 : JsVal) (ws1 ws2 cur n : Options) :
  truthy u1 = truthy u2 ->
  tabSize ws1 = tabSize ws2 ->
  detectChanges u1 ws1 cur n = detectChanges u2 ws2 cur n.
Proof. intros Hu Ht. unfold detectChanges. by rewrite Hu, Ht. Qed.

Lemma promptAndApply_depends (host : HostSetter) (answer : Answer)
    (ws1 ws2 n d e : Options) (s1 s2 : Props) (t : list Event) :
  indentSize ws1 = indentSize ws2 ->
  tabSize ws1 = tabSize ws2 ->
  editor (promptAndApply host answer ws1 n d (mkWorld e s1 t))
  = editor (promptAndApply host answer ws2 n d (mkWorld e s2 t))
  /\ trace (promptAndApply host answer ws1 n d (mkWorld e s1 t))
     = trace (promptAndApply host answer ws2 n d (mkWorld e s2 t)).
Proof.
  intros Hi Ht.
  assert (Hws : promptAndApply host answer ws1 n d (mkWorld e s1 t)
                = promptAndApply host answer ws2 n d (mkWorld e s1 t)).
  { unfold promptAndApply, convertStyle, fallbackTabSize.
    by rewrite Hi, Ht. }
  rewrite Hws. apply promptAndApply_settings_irrelevant.
Qed.

(** A run sees the workspace configuration through three values only. *)
Lemma run_depends_on_three_values (host : HostSetter) (answer : Answer)
    (newOptions e : Options) (s1 s2 : Props) (t : list Event) :
  truthy (prop s1 "useTabSize") = truthy (prop s2 "useTabSize") ->
  tabSize (getWorkspaceIndentationSettings s1)
    = tabSize (getWorkspaceIndentationSettings s2) ->
  indentSize (getWorkspaceIndentationSettings s1)
    = indentSize (getWorkspaceIndentationSettings s2) ->
  observed (applyTextEditorOptions host answer newOptions (mkWorld e s1 t))
  = observed (applyTextEditorOptions host answer newOptions (mkWorld e s2 t)).
Proof.
  intros Hu Ht Hi. unfold applyTextEditorOptions. simpl.
  destruct (toTextEditorResolvedIndentationOptions e) as [m|cur]; [done|].
  destruct (isDeepStrictEqual newOptions cur); [done|].
  rewrite (detectChanges_depends _ _ _ _ cur newOptions Hu Ht).
  destruct (detectChanges _ _ _ _) as [n d].
  destruct (noChanges d); [done|]. simpl.
  by destruct (promptAndApply_depends host answer _ _ n d e s1 s2 t Hi Ht)
    as [-> ->].
Qed.

(** X12.  A run reads four keys of the workspace's [editor] configuration:
    [useTabSize], [detectIndentation], [tabSize] and [indentSize].  The value
    stored under any other key, [insertSpaces] and [autoApply] among them,
    changes neither the prompt, nor the writes, nor the editor's options the
    run leaves. *)
Theorem only_four_settings_are_read (host : HostSetter) (answer : Answer)
    (newOptions e : Options) (s : Props) (t : list Event)
    (key : string) (v : JsVal) :
  key ≠ "useTabSize" ->
  key ≠ "detectIndentation" ->
  key ≠ "tabSize" ->
  key ≠ "indentSize" ->
  observed (applyTextEditorOptions host answer newOptions
              (mkWorld e (<[key := v]> s) t))
  = observed (applyTextEditorOptions host answer newOptions (mkWorld e s t)).
Proof.
  intros H1 H2 H3 H4. apply run_depends_on_three_values;
    unfold getWorkspaceIndentationSettings;
    rewrite ?(prop_insert_ne s key "useTabSize"),
      ?(prop_insert_ne s key "detectIndentation"),
      ?(prop_insert_ne s key "tabSize"),
      ?(prop_insert_ne s key "indentSize") by done;
    try done; by destruct (truthy (prop s "detectIndentation")).
Qed.

Lemma only_four_settings_are_read_witness :
  observed (applyTextEditorOptions assign (Some "Yes")
              (fromEditorConfig spaces2)
              (mkWorld (editor tabsView)
                 (<["insertSpaces" := VBool false]> (settings tabsView)) []))
  = observed (applyTextEditorOptions assign (Some "Yes")
                (fromEditorConfig spaces2)
                (mkWorld (editor tabsView) (settings tabsView) [])).
Proof.
  apply (only_four_settings_are_read assign (Some "Yes")
           (fromEditorConfig spaces2) (editor tabsView) (settings tabsView) []
           "insertSpaces" (VBool false)); discriminate.
Defined.

(** X13.  With [detectIndentation] on, the workspace's default sizes are out
    of the picture: two configurations that both have it on and agree on
    whether [useTabSize] is set lead to the same prompt, the same writes and
    the same editor options. *)
Theorem detectIndentation_hides_defaults (host : HostSetter) (answer : Answer)
    (newOptions e : Options) (s1 s2 : Props) (t : list Event) :
  truthy (prop s1 "detectIndentation") = true ->
  truthy (prop s2 "detectIndentation") = true ->
  truthy (prop s1 "useTabSize") = truthy (prop s2 "useTabSize") ->
  observed (applyTextEditorOptions host answer newOptions (mkWorld e s1 t))
  = observed (applyTextEditorOptions host answer newOptions (mkWorld e s2 t)).
Proof.
  intros H1 H2 Hu. apply run_depends_on_three_values; [exact Hu|..];
    unfold getWorkspaceIndentationSettings; by rewrite H1, H2.
Qed.

Lemma detectIndentation_hides_defaults_witness :
  observed (applyTextEditorOptions assign (Some "Yes")
              (fromEditorConfig spacesOnly)
              (mkWorld (editor tabsView)
                 (<["detectIndentation" := VBool true]>
                    (<["tabSize" := VNum 8]> ∅)) []))
  = observed (applyTextEditorOptions assign (Some "Yes")
                (fromEditorConfig spacesOnly)
                (mkWorld (editor tabsView)
                   (<["detectIndentation" := VBool true]>
                      (<["indentSize" := VNum 2]> ∅)) [])).
Proof.
  apply (detectIndentation_hides_defaults assign (Some "Yes")
           (fromEditorConfig spacesOnly) (editor tabsView)
           (<["detectIndentation" := VBool true]> (<["tabSize" := VNum 8]> ∅))
           (<["detectIndentation" := VBool true]>
              (<["indentSize" := VNum 2]> ∅)) []); reflexivity.
Defined.

Lemma promptAndApply_settings (host : HostSetter) (answer : Answer)
    (ws n d : Options) (w : World) :
  settings (promptAndApply host answer ws n d w)
  = if picked answer "Always Apply For Workspace"
    then <["autoApply" := VBool true]> (settings w)
    else settings w.
Proof.
  unfold promptAndApply, convertStyle, writeSizes.
  destruct (picked answer "Always Apply For Workspace") eqn:Hp; simpl.
  - rewrite orb_true_r. simpl. by case_ifs.
  - rewrite orb_false_r. by case_ifs.
Qed.

(** X14.  A run changes nothing in the workspace configuration, except that
    after "Always Apply For Workspace" it may have stored [autoApply = true];
    every other key keeps its value, and so does [autoApply] after any other
    answer. *)
Theorem only_autoApply_is_stored
    (host : HostSetter) (answer : Answer) (newOptions : Options) (w : World) :
  match applyTextEditorOptions host answer newOptions w with
  | Threw _ w' => settings w' = settings w
  | Done w' =>
    settings w' = settings w
    \/ (answer = Some "Always Apply For Workspace"
        /\ settings w' = <["autoApply" := VBool true]> (settings w))
  end.
Proof.
  unfold applyTextEditorOptions.
  destruct (toTextEditorResolvedIndentationOptions (editor w)); [done|].
  destruct (isDeepStrictEqual _ _); [by left|].
  destruct (detectChanges _ _ _ _) as [n d].
  destruct (noChanges d); [by left|].
  rewrite promptAndApply_settings.
  destruct answer as [item|]; simpl; [|by left].
  destruct (String.eqb_spec item "Always Apply For Workspace") as [->|];
    [by right|by left].
Qed.

(** X15.  The diff is sound.  The desired style and indent size are never
    altered, and the desired tab size only for a symbolic indent size.  A
    style or indent size in the diff is the desired one and differs from the
    live one; a tab size in the diff is the desired one, and is there only
    when [useTabSize] is set. *)
Theorem detectChanges_sound
    (useTabSize : JsVal) (workspaceOptions currentOptions newOptions : Options) :
  let r := detectChanges useTabSize workspaceOptions currentOptions
             newOptions in
  insertSpaces (fst r) = insertSpaces newOptions
  /\ indentSize (fst r) = indentSize newOptions
  /\ (tabSize (fst r) = tabSize newOptions
      \/ (indentSize newOptions = matchTab
          /\ tabSize (fst r) = tabSize workspaceOptions ?? VNum 4))
  /\ (insertSpaces (snd r) = VUndef
      \/ (insertSpaces (snd r) = insertSpaces newOptions
          /\ insertSpaces newOptions ≠ insertSpaces currentOptions))
  /\ (indentSize (snd r) = VUndef
      \/ (indentSize (snd r) = indentSize newOptions
          /\ indentSize newOptions ≠ indentSize currentOptions))
  /\ (tabSize (snd r) = VUndef
      \/ (tabSize (snd r) = tabSize (fst r) /\ truthy useTabSize = true)).
Proof.
  intros r. subst r.
  rewrite detectChanges_insertSpaces, detectChanges_indentSize,
    detectChanges_tabSize, detectChanges_newOptions.
  destruct (strict_eq (indentSize newOptions) matchTab) eqn:Hm;
    [apply strict_eq_true in Hm|]; simpl;
    (split; [done|]); (split; [done|]); (split; [by auto|]); split;
    [| split | | split].
  all: try (destruct (truthy useTabSize); by auto).
  all: match goal with
       | |- context [is_defined ?a && strict_neq ?a ?b] =>
         destruct (is_defined a && strict_neq a b) eqn:Hd; [|by left];
         apply andb_prop in Hd as [_ Hd%strict_neq_true]; by right
       end.
Qed.

(** X16.  A configuration that manages none of the three indentation keys,
    each being absent or [unset], changes nothing on a resolved view and asks
    nothing, whatever else the map holds. *)
Theorem unmanaged_configuration_changes_nothing
    (host : HostSetter) (answer : Answer) (p : Props) (w : World) :
  resolved (editor w) ->
  prop p "indent_style" = VUndef \/ prop p "indent_style" = VStr "unset" ->
  prop p "indent_size" = VUndef \/ prop p "indent_size" = VStr "unset" ->
  prop p "tab_width" = VUndef \/ prop p "tab_width" = VStr "unset" ->
  applyTextEditorOptions host answer (fromEditorConfig p) w = Done w.
Proof.
  intros Hres Hstyle Hsize Hwidth.
  assert (Hno : fromEditorConfig p = noOptions).
  { unfold fromEditorConfig.
    destruct Hstyle as [-> | ->], Hsize as [-> | ->], Hwidth as [-> | ->];
      reflexivity. }
  rewrite Hno. apply no_difference_no_effect; auto.
Qed.

Lemma unmanaged_configuration_changes_nothing_witness :
  applyTextEditorOptions assign (Some "Yes")
    (fromEditorConfig
       (<["end_of_line" := VStr "lf"]> (<["indent_size" := VStr "unset"]> ∅)))
    tabsView
  = Done tabsView.
Proof.
  apply (unmanaged_configuration_changes_nothing assign (Some "Yes")
           (<["end_of_line" := VStr "lf"]>
              (<["indent_size" := VStr "unset"]> ∅)) tabsView).
  - repeat split.
  - left. reflexivity.
  - right. reflexivity.
  - left. reflexivity.
Defined.

(** ** Which file a document resolves against *)

Section ResolutionTarget.

Variable parse : string -> Props.
Variable asRelativePath : string -> option bool -> string.
Variable workspaceFolders : list string.
Variable joinPath : string -> string -> string.
Variable transform :
  PreSaveTransformation -> Props -> TextDocument -> TextDocumentSaveReason ->
  TransformResult.

(** X17.  A document of language [Log], an untitled document in a window
    without a workspace folder, and a document whose file path is empty are
    not resolved at all: the configuration is the empty map, no callback is
    called, and on activation a resolved view is left as it is with nothing
    logged.  Before a save the three transformers still run, on the empty
    map. *)
Theorem documents_without_a_file
    (doc : TextDocument) (before : Callback) (log : Log) :
  languageId doc = "Log"
  \/ getFile workspaceFolders joinPath doc = None
  \/ getFile workspaceFolders joinPath doc = Some "" ->
  resolveEditorConfigFromFiles parse asRelativePath workspaceFolders joinPath
    doc before log = (∅, log)
  /\ (forall host answer w,
        resolved (editor w) ->
        handleChangeActiveTextEditor parse asRelativePath workspaceFolders
          joinPath host answer (Some doc) w log = (Done w, log))
  /\ (forall reason,
        let relativePath := asRelativePath (fileName doc) None in
        calculatePreSaveTransformations parse asRelativePath workspaceFolders
          joinPath transform doc reason log
        = (contribution transform ∅ doc reason SetEndOfLine
           ++ contribution transform ∅ doc reason TrimTrailingWhitespace
           ++ contribution transform ∅ doc reason InsertFinalNewline,
           log
           ++ diagnostics transform relativePath ∅ doc reason SetEndOfLine
           ++ diagnostics transform relativePath ∅ doc reason
                TrimTrailingWhitespace
           ++ diagnostics transform relativePath ∅ doc reason
                InsertFinalNewline)).
Proof.
  intros Hdoc.
  assert (Hnone : forall cb,
    resolveEditorConfigFromFiles parse asRelativePath workspaceFolders
      joinPath doc cb log = (∅, log)).
  { intros cb. unfold resolveEditorConfigFromFiles, resolveFile.
    destruct Hdoc as [-> | [-> | ->]]; simpl; [done|..];
      by destruct (String.eqb (languageId doc) "Log"). }
  split; [apply Hnone|]. split.
  - intros host answer w Hres. apply empty_config_no_effect; [done|].
    by rewrite Hnone.
  - intros reason relativePath. unfold calculatePreSaveTransformations.
    rewrite Hnone. unfold truthyObject. cbn [negb].
    rewrite flatMapTransformers_spec. simpl. by rewrite !app_nil_r.
Qed.

(** X18.  Any other document resolves against one file: a saved document
    against its own path, an untitled one against its name under the first
    workspace folder.  The configuration is what [editorconfig.parse] gives
    for that file, and the callback is called once, with the relative path,
    unless that path is empty. *)
Theorem documents_resolve_against_one_file
    (doc : TextDocument) (before : Callback) (log : Log) (file : string) :
  languageId doc ≠ "Log" ->
  file ≠ "" ->
  (isUntitled doc = false /\ file = uri doc)
  \/ (isUntitled doc = true
      /\ exists folder folders,
           workspaceFolders = folder :: folders
           /\ file = joinPath folder (fileName doc)) ->
  resolveEditorConfigFromFiles parse asRelativePath workspaceFolders joinPath
    doc before log
  = (parse file,
     if String.eqb (asRelativePath file (Some true)) "" then log
     else call before (asRelativePath file (Some true)) log).
Proof.
  intros Hlang Hfile Hcase.
  assert (Hget : getFile workspaceFolders joinPath doc = Some file).
  { unfold getFile.
    destruct Hcase as [[-> ->] | (-> & folder & folders & -> & ->)]; done. }
  unfold resolveEditorConfigFromFiles, resolveFile.
  destruct (String.eqb_spec (languageId doc) "Log") as [|_]; [done|].
  rewrite Hget. simpl.
  destruct (String.eqb_spec file "") as [|_]; [done|]. simpl.
  by destruct (String.eqb (asRelativePath file (Some true)) "").
Qed.

End ResolutionTarget.

Lemma documents_without_a_file_witness :
  resolveEditorConfigFromFiles oneConfig relativeToRoot [] underFolder
    scratchpad onBeforeResolve [] = (∅, [])
  /\ handleChangeActiveTextEditor oneConfig relativeToRoot [] underFolder
       assign (Some "Yes") (Some scratchpad) tabsView []
     = (Done tabsView, []).
Proof.
  destruct (documents_without_a_file oneConfig relativeToRoot [] underFolder
              nothingToDo scratchpad onBeforeResolve [])
    as (Hcfg & Hrun & _).
  - right. left. reflexivity.
  - split; [exact Hcfg|].
    destruct (documents_without_a_file oneConfig relativeToRoot [] underFolder
                nothingToDo scratchpad None [])
      as (_ & Hrun' & _).
    + right. left. reflexivity.
    + apply Hrun'. repeat split.
Defined.

Lemma documents_resolve_against_one_file_witness :
  resolveEditorConfigFromFiles oneConfig relativeToRoot ["work"] underFolder
    scratchpad onBeforeResolve []
  = (spaces2, ["work/Untitled-1: Using EditorConfig core..."]).
Proof.
  rewrite (documents_resolve_against_one_file oneConfig relativeToRoot
             ["work"] underFolder scratchpad onBeforeResolve []
             "work/Untitled-1").
  - reflexivity.
  - discriminate.
  - discriminate.
  - right. split; [reflexivity|]. exists "work", []. split; reflexivity.
Defined.
